(** * AQI dashboard: a shallow embedding of [app.py] and its properties

    The dashboard is a Streamlit script.  It polls a remote table of
    sensor samples, classifies the newest AQI value into a severity band
    and draws trend charts, in a periodically refreshed live view and in
    a one-shot historical view.

    The embedding follows the script function by function:
    - Python exceptions are an error monad [Py]; the script's effects (the
      round trips to the store and the elements it draws) are threaded
      through a state [World];
    - a fetched row is a record with the store's column names, a
      DataFrame row a record with the renamed columns;
    - numbers read from the store are exact rationals ([Q]); [int(...)]
      is truncation toward zero;
    - a timestamp is an instant (microseconds since the epoch) together
      with a UTC offset: the offset it is written at in the store's
      text, then the offset it is displayed at;
    - pandas is the release line that infers one format for a column of
      time texts and keeps timestamps at nanosecond resolution. *)

From Stdlib Require Import ZArith QArith Qround List String Ascii Bool Lia.
From Stdlib Require Import Permutation Sorted Orders Mergesort RelationClasses.
Import ListNotations.

Open Scope string_scope.
Open Scope Z_scope.

(** ** Python exceptions and results *)

Inductive Exn : Type :=
| IndexError (msg : string)
| KeyError (key : string)
| ValueError (msg : string)
| ConnectError (msg : string)
| APIError (msg : string).

Inductive Py (A : Type) : Type :=
| Ret (a : A)
| Raise (e : Exn).

Arguments Ret {A} a.
Arguments Raise {A} e.

(** ** The data model *)

(** A tz-aware point in time: [pd.Timestamp] compares by [instant] only.
    The same record stands for the text of a [created_at] value, an
    ISO 8601 time with its offset: the store writes the seconds with a
    fractional part exactly when the microseconds are not zero, so the
    instant and the offset determine the text. *)
Record datetime : Type := mkDatetime {
  instant : Z;      (* microseconds since 1970-01-01T00:00:00Z *)
  utcoffset : Z     (* seconds east of UTC used for display *)
}.

(** One row of the table [sensordata], as the store returns it. *)
Record Row : Type := mkRow {
  id : Z;
  created_at : datetime;
  mq135 : Q;
  temperature : Q;
  humidity : Q;
  aqi : Q
}.

(** One row of the DataFrame after [df.rename(columns=...)]: the column
    [id] keeps its name, the other five are capitalised.  [Timestamp]
    holds the store's text until the column is converted, and the parsed
    timestamp afterwards. *)
Record Series : Type := mkSeries {
  col_id : Z;
  Timestamp : datetime;
  MQ135 : Q;
  Temperature : Q;
  Humidity : Q;
  AQI : Q
}.

(** A DataFrame is its rows in index order.  [pd.DataFrame([])] has no
    columns at all; the script never builds a frame that has columns and
    no rows, so [[]] stands for that column-less frame. *)
Definition DataFrame : Type := list Series.

(** ** The remote store *)

(** The table's content and the state of the connection at each round
    trip, and the number of round trips made so far.  The table is
    written by an upstream process, so its content depends on when it is
    read. *)
Record Cloud : Type := mkCloud {
  sensordata : nat -> list Row;
  outage : nat -> option Exn;
  trips : nat
}.

(** The order of [.order("id", desc=True)]: larger ids first. *)
Definition id_desc_leb (a b : Row) : bool := id b <=? id a.

Lemma id_desc_leb_total :
  forall a b, id_desc_leb a b = true \/ id_desc_leb b a = true.
Proof.
  intros a b. unfold id_desc_leb.
  destruct (Z.leb_spec (id b) (id a)) as [Hle | Hlt]; [now left | right].
  apply Z.leb_le. lia.
Qed.

Module IdDesc <: TotalLeBool.
Definition t : Type := Row.
Definition leb : t -> t -> bool := id_desc_leb.
Definition leb_total := id_desc_leb_total.
End IdDesc.

Module IdSort := Sort IdDesc.

(** [.order("id", desc=True)] *)
Definition order_id_desc (table : list Row) : list Row := IdSort.sort table.

(** [.limit(limit)] *)
Definition limit_rows (limit : Z) (rows : list Row) : list Row :=
  firstn (Z.to_nat limit) rows.

Record Response : Type := mkResponse { data : list Row }.

(** ** The script's state and its monad *)

Record Figure : Type := mkFigure {
  traces : list (string * list (datetime * Q));
  fig_title : option string;
  markers : bool;
  height : option Z
}.

Inductive MetricValue : Type :=
| IntValue (z : Z)
| WithUnit (q : Q) (unit : string).

(** What the script draws.  [StatusBar] is the HTML block of the live
    view with its three interpolated values. *)
Inductive Element : Type :=
| Title (s : string)
| Subheader (s : string)
| Metric (label : string) (value : MetricValue)
| Caption (s : string)
| StatusBar (status color : string) (aqi_value : Z)
| Markdown (s : string)
| PlotlyChart (fig : Figure)
| Dataframe (df : DataFrame)
| Info (s : string)
| Write (s : string)
| ExceptionBox (e : Exn).

Record World : Type := mkWorld {
  cloud : Cloud;
  frame : list Element
}.

Definition M (A : Type) : Type := World -> Py A * World.

Definition ret {A : Type} (a : A) : M A := fun w => (Ret a, w).

Definition raise {A : Type} (e : Exn) : M A := fun w => (Raise e, w).

Definition bind {A B : Type} (m : M A) (k : A -> M B) : M B :=
  fun w =>
    match m w with
    | (Ret a, w') => k a w'
    | (Raise e, w') => (Raise e, w')
    end.

Definition lift {A : Type} (r : Py A) : M A := fun w => (r, w).

(** [try: body  except: handler] with a bare [except], which catches
    every exception.  What [body] did to the world before raising stays
    done. *)
Definition try_except {A : Type} (body : M A) (handler : Exn -> M A) : M A :=
  fun w =>
    match body w with
    | (Ret a, w') => (Ret a, w')
    | (Raise e, w') => handler e w'
    end.

Declare Scope py_scope.
Delimit Scope py_scope with py.
Notation "x <- m ;; k" := (bind m (fun x => k))
  (at level 61, m at next level, right associativity) : py_scope.
Notation "m ;; k" := (bind m (fun _ => k))
  (at level 61, right associativity) : py_scope.
Open Scope py_scope.

(** Drawing an element appends it to the frame under construction. *)
Definition st (e : Element) : M unit :=
  fun w => (Ret tt, {| cloud := cloud w; frame := frame w ++ [e] |}).

(** ** Data fetching *)

(** One round trip:
    [supabase.table("sensordata").select("*").order("id", desc=True).limit(limit).execute()] *)
Definition execute (limit : Z) : M Response :=
  fun w =>
    let c := cloud w in
    let w' := {| cloud := {| sensordata := sensordata c;
                             outage := outage c;
                             trips := S (trips c) |};
                 frame := frame w |} in
    match outage c (trips c) with
    | Some e => (Raise e, w')
    | None =>
        (Ret {| data := limit_rows limit (order_id_desc (sensordata c (trips c))) |}, w')
    end.

Definition get_latest_data (limit : Z) : M (list Row) :=
  try_except
    (response <- execute limit ;;
     ret (data response))
    (fun _ => ret []).

(** ** Severity bands *)

Inductive SeverityBand : Type :=
| Good
| Moderate
| UnhealthySensitive
| Unhealthy
| VeryUnhealthy
| Hazardous.

(** The [if]/[elif] chain of the live view. *)
Definition classify (aqi_value : Z) : SeverityBand :=
  if aqi_value <=? 50 then Good
  else if aqi_value <=? 100 then Moderate
  else if aqi_value <=? 150 then UnhealthySensitive
  else if aqi_value <=? 200 then Unhealthy
  else if aqi_value <=? 300 then VeryUnhealthy
  else Hazardous.

Definition status (b : SeverityBand) : string :=
  match b with
  | Good => "Good 😊"
  | Moderate => "Moderate 🙂"
  | UnhealthySensitive => "Unhealthy (Sens.) 😐"
  | Unhealthy => "Unhealthy 😷"
  | VeryUnhealthy => "Very Unhealthy 🤢"
  | Hazardous => "Hazardous ☠️"
  end.

Definition color (b : SeverityBand) : string :=
  match b with
  | Good => "#00e400"
  | Moderate => "#ffff00"
  | UnhealthySensitive => "#ff7e00"
  | Unhealthy => "#ff0000"
  | VeryUnhealthy => "#8f3f97"
  | Hazardous => "#7e0023"
  end.

(** The position of a band in the scale, 0 for the least severe. *)
Definition severity (b : SeverityBand) : Z :=
  match b with
  | Good => 0
  | Moderate => 1
  | UnhealthySensitive => 2
  | Unhealthy => 3
  | VeryUnhealthy => 4
  | Hazardous => 5
  end.

(** ** DataFrame operations *)

(** [df.rename(columns={'created_at': 'Timestamp', 'mq135': 'MQ135',
    'temperature': 'Temperature', 'humidity': 'Humidity', 'aqi': 'AQI'})] *)
Definition rename (r : Row) : Series :=
  {| col_id := id r;
     Timestamp := created_at r;
     MQ135 := mq135 r;
     Temperature := temperature r;
     Humidity := humidity r;
     AQI := aqi r |}.

(** [pd.DataFrame(rows)] and the in-place [rename]: one frame row per
    fetched row, in the order fetched. *)
Definition DataFrame_of (rows : list Row) : DataFrame := map rename rows.

(** The UTC offset of the zone 'Asia/Kolkata', in seconds, at [t] seconds
    since the epoch, as the tz database records it: local mean times
    until 1906, UTC+05:30 since, but for two spells at UTC+06:30 during
    the war, the last of which ended on 1945-10-15. *)
Definition Asia_Kolkata (t : Z) : Z :=
  if t <? -3645237208 then 21208
  else if t <? -3155694800 then 21200
  else if t <? -2019705670 then 19270
  else if t <? -891581400 then 19800
  else if t <? -872058600 then 23400
  else if t <? -862637400 then 19800
  else if t <? -764145000 then 23400
  else 19800.

(** [.dt.tz_convert(zone)]: the same instant at the zone's offset. *)
Definition tz_convert (zone : Z -> Z) (d : datetime) : datetime :=
  {| instant := instant d; utcoffset := zone (instant d / 1000000) |}.

Definition set_Timestamp (d : datetime) (s : Series) : Series :=
  {| col_id := col_id s;
     Timestamp := d;
     MQ135 := MQ135 s;
     Temperature := Temperature s;
     Humidity := Humidity s;
     AQI := AQI s |}.

(** The timestamp of one frame row, parsed and shown in 'Asia/Kolkata'. *)
Definition localize (s : Series) : Series :=
  set_Timestamp (tz_convert Asia_Kolkata (Timestamp s)) s.

(** Whether the text of a time writes a fractional part of the seconds. *)
Definition has_fraction (d : datetime) : bool :=
  negb (instant d mod 1000000 =? 0).

Definition same_format (first d : datetime) : bool :=
  Bool.eqb (has_fraction first) (has_fraction d).

Definition same_offset (first d : datetime) : bool :=
  utcoffset first =? utcoffset d.

(** The instants a nanosecond timestamp can hold: from 1677-09-21 to
    2262-04-11. *)
Definition in_bounds (d : datetime) : bool :=
  (-9223372036854775 <=? instant d) && (instant d <=? 9223372036854775).

(** [pd.to_datetime(column)] on a column of time texts.  The format is
    inferred from the first text and every text must match it, so a
    column that mixes texts with and without a fractional part is
    refused; so is a text out of bounds, and so is, once [.dt] is
    applied to the result, a column that mixes UTC offsets. *)
Definition to_datetime (column : list datetime) : Py (list datetime) :=
  match column with
  | [] => Ret []
  | first :: _ =>
      if negb (forallb (same_format first) column)
      then Raise (ValueError "time data doesn't match format")
      else if negb (forallb in_bounds column)
      then Raise (ValueError "Out of bounds nanosecond timestamp")
      else if negb (forallb (same_offset first) column)
      then Raise (ValueError "Mixed timezones detected")
      else Ret column
  end.

Definition py_bind {A B : Type} (r : Py A) (k : A -> Py B) : Py B :=
  match r with
  | Ret a => k a
  | Raise e => Raise e
  end.

(** [df['Timestamp'] = pd.to_datetime(df['Timestamp']).dt.tz_convert('Asia/Kolkata')].
    A frame made from no rows has no column to read. *)
Definition convert_Timestamp (df : DataFrame) : Py DataFrame :=
  match df with
  | [] => Raise (KeyError "Timestamp")
  | _ :: _ =>
      py_bind (to_datetime (map Timestamp df)) (fun _ => Ret (map localize df))
  end.

(** [df.iloc[0]] *)
Definition iloc0 (df : DataFrame) : Py Series :=
  match df with
  | [] => Raise (IndexError "single positional indexer is out-of-bounds")
  | s :: _ => Ret s
  end.

(** [int(x)] on a number: truncation toward zero. *)
Definition int (x : Q) : Z := Z.quot (Qnum x) (Zpos (Qden x)).

Definition digit (n : Z) : ascii := ascii_of_nat (48 + Z.to_nat n).

Definition two_digits (n : Z) : string :=
  String (digit (n / 10)) (String (digit (n mod 10)) EmptyString).

(** [ts.strftime("%H:%M:%S")]: the wall-clock time at the timestamp's offset. *)
Definition strftime_HMS (d : datetime) : string :=
  let secs := (instant d / 1000000 + utcoffset d) mod 86400 in
  (two_digits (secs / 3600) ++ ":" ++
   two_digits (secs mod 3600 / 60) ++ ":" ++
   two_digits (secs mod 60))%string.

(** The order of [sort_values('Timestamp')]: earlier instants first. *)
Definition timestamp_leb (a b : Series) : bool :=
  instant (Timestamp a) <=? instant (Timestamp b).

Lemma timestamp_leb_total :
  forall a b, timestamp_leb a b = true \/ timestamp_leb b a = true.
Proof.
  intros a b. unfold timestamp_leb.
  destruct (Z.leb_spec (instant (Timestamp a)) (instant (Timestamp b)))
    as [Hle | Hlt]; [now left | right].
  apply Z.leb_le. lia.
Qed.

Module TimestampAsc <: TotalLeBool.
Definition t : Type := Series.
Definition leb : t -> t -> bool := timestamp_leb.
Definition leb_total := timestamp_leb_total.
End TimestampAsc.

Module TimestampSort := Sort TimestampAsc.

(** [df.sort_values('Timestamp')]: ascending.  pandas does not promise an
    order among rows of equal timestamp; the merge sort used here keeps
    them in their input order, and nothing below depends on that. *)
Definition sort_values (df : DataFrame) : DataFrame := TimestampSort.sort df.

(** The columns the charts plot. *)
Inductive YColumn : Type :=
| yAQI
| yTemperature
| yHumidity.

Definition column_name (y : YColumn) : string :=
  match y with
  | yAQI => "AQI"
  | yTemperature => "Temperature"
  | yHumidity => "Humidity"
  end.

Definition column_value (y : YColumn) (s : Series) : Q :=
  match y with
  | yAQI => AQI s
  | yTemperature => Temperature s
  | yHumidity => Humidity s
  end.

(** The points of one line: a (Timestamp, value) pair per frame row, in
    the frame's order. *)
Definition points (y : YColumn) (df : DataFrame) : list (datetime * Q) :=
  map (fun s => (Timestamp s, column_value y s)) df.

(** The [y] argument of [px.line]: one column name, or a list of them. *)
Inductive YArg : Type :=
| YName (c : YColumn)
| YNames (cs : list YColumn).

(** [px.line(df, x="Timestamp", y=..., title=..., markers=..., height=...)].
    With one column name the figure has one line, which carries no
    name; with a list it has one line per column, named after it. *)
Definition px_line (df : DataFrame) (y : YArg)
  (title : option string) (with_markers : bool) (h : option Z) : Figure :=
  {| traces :=
       match y with
       | YName c => [("", points c df)]
       | YNames cs => map (fun c => (column_name c, points c df)) cs
       end;
     fig_title := title;
     markers := with_markers;
     height := h |}.

(** ** The live view *)

Definition show_live_monitor : M unit :=
  rows <- get_latest_data 50 ;;
  match rows with
  | _ :: _ =>
      let df := DataFrame_of rows in
      df <- lift (convert_Timestamp df) ;;
      latest <- lift (iloc0 df) ;;
      let aqi := int (AQI latest) in
      let temp := Temperature latest in
      let hum := Humidity latest in
      let time_str := strftime_HMS (Timestamp latest) in
      let band := classify aqi in
      st (Title "🟢 Live AQI Monitoring") ;;
      st (Metric "AQI Level" (IntValue aqi)) ;;
      st (Metric "Temperature" (WithUnit temp "°C")) ;;
      st (Metric "Humidity" (WithUnit hum "%")) ;;
      st (Caption ("Last Updated: " ++ time_str)) ;;
      st (StatusBar (status band) (color band) aqi) ;;
      st (Markdown "---") ;;
      st (Subheader "📈 Live Trend") ;;
      let df_sorted := sort_values df in
      let fig := px_line df_sorted (YName yAQI) None true (Some 300) in
      st (PlotlyChart fig)
  | [] =>
      st (Info "Connecting to cloud...")
  end.

(** ** The historical view *)

(** The spinner shown while the fetch runs is gone when it returns, so it
    leaves nothing in the frame. *)
Definition show_history : M unit :=
  st (Title "📁 Historical Data") ;;
  rows <- get_latest_data 1000 ;;
  match rows with
  | _ :: _ =>
      let df := DataFrame_of rows in
      df <- lift (convert_Timestamp df) ;;
      let df_sorted := sort_values df in
      st (Subheader "📊 Full History Trends") ;;
      let fig := px_line df_sorted (YNames [yAQI; yTemperature; yHumidity])
                   (Some "Environmental Data Over Time") false None in
      st (PlotlyChart fig) ;;
      st (Subheader "📄 Data Log (Newest First)") ;;
      st (Dataframe df)
  | [] =>
      st (Write "No data found.")
  end.

Definition show_future : M unit :=
  st (Title "🔮 Future AQI Forecasting") ;;
  st (Info "Model training in progress...").

(** ** Running the views *)

Inductive Choice : Type :=
| CurrentData
| StoredData
| FutureData.

Definition router (choice : Choice) : M unit :=
  match choice with
  | CurrentData => show_live_monitor
  | StoredData => show_history
  | FutureData => show_future
  end.

(** One run of a view.  Streamlit draws a run into the view's emptied
    container: what an earlier run drew there is discarded.  An exception
    that escapes the run is shown in a box after what was drawn. *)
Definition rerun (body : M unit) (w : World) : World :=
  match body {| cloud := cloud w; frame := [] |} with
  | (Ret _, w') => w'
  | (Raise e, w') => {| cloud := cloud w'; frame := frame w' ++ [ExceptionBox e] |}
  end.

(** [@st.fragment(run_every=refresh_seconds)]: the live view run again at
    each firing of the timer; [n] counts the firings. *)
Fixpoint run_every (n : nat) (body : M unit) (w : World) : World :=
  match n with
  | O => w
  | S k => run_every k body (rerun body w)
  end.

(** ** Sample data *)

Definition r5 : Row := mkRow 5 (mkDatetime 1700000300000000 0) 412 (251 # 10) 40 (509 # 10).
Definition r4 : Row := mkRow 4 (mkDatetime 1700000200000000 0) 398 25 41 120.
Definition r3 : Row := mkRow 3 (mkDatetime 1700000100000000 0) 405 25 42 301.

(** A store holding three samples, reachable at every round trip. *)
Definition cloud_up : Cloud :=
  mkCloud (fun _ => [r3; r5; r4]) (fun _ => None) 0%nat.

(** The same store behind a link that fails at every round trip but the first. *)
Definition cloud_flaky : Cloud :=
  mkCloud (fun _ => [r3; r5; r4])
    (fun n => match n with O => None | S _ => Some (ConnectError "timed out") end)
    0%nat.

(** A reachable store whose table is still empty. *)
Definition cloud_empty : Cloud :=
  mkCloud (fun _ => []) (fun _ => None) 0%nat.

(** A store whose only sample reads zero everywhere. *)
Definition cloud_zero : Cloud :=
  mkCloud (fun _ => [mkRow 1 (mkDatetime 1700000000000000 0) 0 0 0 0])
    (fun _ => None) 0%nat.

(** Two more samples, written otherwise than the three above: one with
    microseconds, one at UTC+01:00. *)
Definition r6 : Row := mkRow 6 (mkDatetime 1700000400250000 0) 401 25 40 75.
Definition r7 : Row := mkRow 7 (mkDatetime 1700000500000000 3600) 402 25 40 80.

(** A reachable store whose newest sample carries microseconds. *)
Definition cloud_mixed : Cloud :=
  mkCloud (fun _ => [r3; r5; r4; r6]) (fun _ => None) 0%nat.

(** The [n]-th sample of a sensor that reports once a minute; the AQI
    values sweep the range 10 to 320. *)
Definition sample_row (n : nat) : Row :=
  mkRow (Z.of_nat n)
    (mkDatetime (1700000000000000 + 60000000 * Z.of_nat n) 0)
    (400 + inject_Z (Z.of_nat (n mod 50)))
    (20 + inject_Z (Z.of_nat (n mod 15)))
    (35 + inject_Z (Z.of_nat (n mod 40)))
    (inject_Z (10 + Z.of_nat (n * 7 mod 311))).

(** A reachable store holding the samples 1 to 1200, in insertion order. *)
Definition cloud_big : Cloud :=
  mkCloud (fun _ => map sample_row (seq 1 1200)) (fun _ => None) 0%nat.

(** ** Vocabulary of the properties *)

(** What a fetch returns in a given state of the store. *)
Definition fetched (limit : Z) (c : Cloud) : list Row :=
  match outage c (trips c) with
  | Some _ => []
  | None => limit_rows limit (order_id_desc (sensordata c (trips c)))
  end.

(** The world after one more round trip. *)
Definition tick (w : World) : World :=
  {| cloud := {| sensordata := sensordata (cloud w);
                 outage := outage (cloud w);
                 trips := S (trips (cloud w)) |};
     frame := frame w |}.

(** Rows in descending order of [id]; ids being unique in the store, the
    order is then strict. *)
Definition newest_first (rows : list Row) : Prop :=
  StronglySorted (fun a b => id b <= id a) rows.

(** A series is ascending when its instants never decrease. *)
Definition ascending (pts : list (datetime * Q)) : Prop :=
  Sorted Z.le (map (fun p => instant (fst p)) pts).

(** The (instant, value) pairs of a series and of a batch of rows. *)
Definition pairs_of_series (pts : list (datetime * Q)) : list (Z * Q) :=
  map (fun p => (instant (fst p), snd p)) pts.

Definition raw_value (y : YColumn) (r : Row) : Q :=
  match y with
  | yAQI => aqi r
  | yTemperature => temperature r
  | yHumidity => humidity r
  end.

Definition pairs_of_rows (y : YColumn) (rows : list Row) : list (Z * Q) :=
  map (fun r => (instant (created_at r), raw_value y r)) rows.

(** The elements the live view draws, as a function of the fetched
    rows: nothing when the conversion of the timestamps raises. *)
Definition live_drawn (rows : list Row) : list Element :=
  match rows with
  | [] => [Info "Connecting to cloud..."]
  | r :: _ =>
      match convert_Timestamp (DataFrame_of rows) with
      | Raise _ => []
      | Ret _ =>
          let latest := localize (rename r) in
          let band := classify (int (AQI latest)) in
          [Title "🟢 Live AQI Monitoring";
           Metric "AQI Level" (IntValue (int (AQI latest)));
           Metric "Temperature" (WithUnit (Temperature latest) "°C");
           Metric "Humidity" (WithUnit (Humidity latest) "%");
           Caption ("Last Updated: " ++ strftime_HMS (Timestamp latest));
           StatusBar (status band) (color band) (int (AQI latest));
           Markdown "---";
           Subheader "📈 Live Trend";
           PlotlyChart
             (px_line (sort_values (map localize (DataFrame_of rows)))
                (YName yAQI) None true (Some 300))]
      end
  end.

(** The elements the historical view draws, as a function of the fetched
    rows: its title alone when the conversion raises. *)
Definition history_drawn (rows : list Row) : list Element :=
  match rows with
  | [] => [Title "📁 Historical Data"; Write "No data found."]
  | _ :: _ =>
      match convert_Timestamp (DataFrame_of rows) with
      | Raise _ => [Title "📁 Historical Data"]
      | Ret _ =>
          [Title "📁 Historical Data";
           Subheader "📊 Full History Trends";
           PlotlyChart
             (px_line (sort_values (map localize (DataFrame_of rows)))
                (YNames [yAQI; yTemperature; yHumidity])
                (Some "Environmental Data Over Time") false None);
           Subheader "📄 Data Log (Newest First)";
           Dataframe (map localize (DataFrame_of rows))]
      end
  end.

(** How a view ends on the fetched rows: normally, or with the exception
    of the conversion. *)
Definition view_result (rows : list Row) : Py unit :=
  match rows with
  | [] => Ret tt
  | _ :: _ => py_bind (convert_Timestamp (DataFrame_of rows)) (fun _ => Ret tt)
  end.

(** What is on screen after a run: what was drawn, then the exception if
    one escaped. *)
Definition shown (drawn : list Element) (result : Py unit) : list Element :=
  match result with
  | Ret _ => drawn
  | Raise e => drawn ++ [ExceptionBox e]
  end.

Definition live_frame (rows : list Row) : list Element :=
  shown (live_drawn rows) (view_result rows).

Definition history_frame (rows : list Row) : list Element :=
  shown (history_drawn rows) (view_result rows).

(** The text of each option of the radio. *)
Definition label (c : Choice) : string :=
  match c with
  | CurrentData => "Current Data"
  | StoredData => "Stored Data"
  | FutureData => "Future Data"
  end.

(** The charts of a frame, in drawing order. *)
Fixpoint charts (fr : list Element) : list Figure :=
  match fr with
  | [] => []
  | PlotlyChart fig :: rest => fig :: charts rest
  | _ :: rest => charts rest
  end.

(** The points of the lines called [name] among the lines [ts]. *)
Fixpoint trace_points (name : string) (ts : list (string * list (datetime * Q)))
  : list (datetime * Q) :=
  match ts with
  | [] => []
  | (n, pts) :: rest =>
      if String.eqb n name then pts ++ trace_points name rest
      else trace_points name rest
  end.

(** The points plotted under [name] in a frame: the series rebuilt from
    what was drawn. *)
Definition chart_points (name : string) (fr : list Element) : list (datetime * Q) :=
  flat_map (fun fig => trace_points name (traces fig)) (charts fr).

(** ** The page around the views *)

(** The colours of the style sheet: the background it gives to each
    class of the AQI bar. *)
Definition css_background (class : string) : option string :=
  if String.eqb class "good" then Some "#00e400"
  else if String.eqb class "moderate" then Some "#ffff00"
  else if String.eqb class "poor" then Some "#ff7e00"
  else if String.eqb class "unhealthy" then Some "#ff0000"
  else if String.eqb class "veryunhealthy" then Some "#8f3f97"
  else if String.eqb class "hazardous" then Some "#7e0023"
  else None.

(** The six segments of the AQI bar of the live view, left to right, each
    with its class and its text. *)
Definition bar_segments : list (string * string) :=
  [("good", "Good"); ("moderate", "Moderate"); ("poor", "Poor");
   ("unhealthy", "Unhealthy"); ("veryunhealthy", "Severe");
   ("hazardous", "Hazardous")].

(** The seven ticks under the bar, spread from its left end to its right
    end: the tick of index [k] stands at the left edge of the segment of
    index [k]. *)
Definition bar_ticks : list string :=
  ["0"; "50"; "100"; "150"; "200"; "300"; "301+"].

(** What the whole script draws: the elements of the views, and around
    them the error box, the style sheet and the widgets of the sidebar. *)
Inductive PageElement : Type :=
| ErrorBox (s : string)
| StyleSheet
| SidebarTitle (s : string)
| SidebarSlider (label : string) (lo hi value : Z)
| SidebarRadio (label : string) (options : list string) (value : string)
| Body (e : Element).

(** [st.secrets[key]] *)
Fixpoint secrets_get (secrets : list (string * string)) (key : string) : Py string :=
  match secrets with
  | [] => Raise (KeyError key)
  | (k, v) :: rest => if String.eqb k key then Ret v else secrets_get rest key
  end.

Definition radio_options : list string :=
  ["Current Data"; "Stored Data"; "Future Data"].

(** The [if]/[elif] chain at the end of the script. *)
Definition route (choice : string) : M unit :=
  if String.eqb choice "Current Data" then show_live_monitor
  else if String.eqb choice "Stored Data" then show_history
  else if String.eqb choice "Future Data" then show_future
  else ret tt.

Section Script.

(** [create_client(url, key)] of the store's library: it returns a client
    or raises. *)
Variable create_client : string -> string -> Py unit.

(** The body of the [try] at the top of the script. *)
Definition configure (secrets : list (string * string)) : Py unit :=
  py_bind (secrets_get secrets "SUPABASE_URL") (fun SUPABASE_URL =>
  py_bind (secrets_get secrets "SUPABASE_KEY") (fun SUPABASE_KEY =>
  create_client SUPABASE_URL SUPABASE_KEY)).

(** One run of the script from top to bottom, with the values the two
    widgets of the sidebar return.  When the configuration fails the
    script draws the error box and stops. *)
Definition script (secrets : list (string * string))
  (refresh_seconds : Z) (choice : string) (w : World) : list PageElement * World :=
  match configure secrets with
  | Raise _ =>
      ([ErrorBox "❌ Connection Error: Please check your Streamlit Cloud 'Secrets' configuration."],
       w)
  | Ret _ =>
      let w' := rerun (route choice) w in
      (([StyleSheet;
        SidebarTitle "⚙️ Settings";
        SidebarSlider "⏱ Refresh Speed" 2 60 refresh_seconds;
        SidebarTitle "📌 Navigation";
        SidebarRadio "Select View" radio_options choice]
         ++ map Body (frame w'))%list,
       w')
  end.

End Script.

(** ** Reading text back *)

Definition digit_value (c : ascii) : option Z :=
  let n := Z.of_nat (nat_of_ascii c) in
  if (48 <=? n) && (n <=? 57) then Some (n - 48) else None.

(** The number a string of decimal digits writes, after the number [acc]
    written by the digits before it. *)
Fixpoint read_digits (acc : Z) (s : string) : option Z :=
  match s with
  | EmptyString => Some acc
  | String c rest =>
      match digit_value c with
      | Some d => read_digits (10 * acc + d) rest
      | None => None
      end
  end.

Definition read_number (s : string) : option Z :=
  match s with
  | EmptyString => None
  | String _ _ => read_digits 0 s
  end.

(** The hour, minute and second that a text of the form HH:MM:SS writes. *)
Definition read_HMS (s : string) : option (Z * Z * Z) :=
  match s with
  | String h1 (String h0 (String c1 (String m1 (String m0
      (String c2 (String s1 (String s0 EmptyString))))))) =>
      if Ascii.eqb c1 ":" && Ascii.eqb c2 ":" then
        match read_digits 0 (String h1 (String h0 EmptyString)),
              read_digits 0 (String m1 (String m0 EmptyString)),
              read_digits 0 (String s1 (String s0 EmptyString)) with
        | Some h, Some m, Some sec => Some (h, m, sec)
        | _, _, _ => None
        end
      else None
  | _ => None
  end.

(** * Properties *)

(** ** The fetch *)

Lemma get_latest_data_run (limit : Z) (w : World) :
  get_latest_data limit w = (Ret (fetched limit (cloud w)), tick w).
Proof.
  unfold get_latest_data, try_except, bind, execute, fetched, tick, ret.
  destruct (outage (cloud w) (trips (cloud w))); reflexivity.
Qed.

Lemma fst_get_latest_data (limit : Z) (w : World) :
  fst (get_latest_data limit w) = Ret (fetched limit (cloud w)).
Proof. now rewrite get_latest_data_run. Qed.

Lemma got_rows (limit : Z) (w : World) (rows : list Row) :
  fst (get_latest_data limit w) = Ret rows -> fetched limit (cloud w) = rows.
Proof. rewrite fst_get_latest_data. now intros [= ->]. Qed.

Lemma In_firstn {A : Type} (n : nat) (l : list A) (x : A) :
  In x (firstn n l) -> In x l.
Proof.
  intros Hx. rewrite <- (firstn_skipn n l). apply in_or_app. now left.
Qed.

Lemma StronglySorted_firstn {A : Type} (R : A -> A -> Prop) (n : nat) (l : list A) :
  StronglySorted R l -> StronglySorted R (firstn n l).
Proof.
  intros Hl. revert n.
  induction Hl as [| a l Hl IH Ha]; intros [| n]; simpl; try constructor.
  - apply IH.
  - rewrite Forall_forall in *. intros x Hx. apply Ha.
    eapply In_firstn; eassumption.
Qed.

#[local] Instance IdDesc_leb_trans : Transitive (fun a b => is_true (IdDesc.leb a b)).
Proof.
  intros a b c. unfold IdDesc.leb, id_desc_leb, is_true. rewrite !Z.leb_le. lia.
Qed.

Lemma order_id_desc_newest_first (table : list Row) :
  newest_first (order_id_desc table).
Proof.
  unfold newest_first, order_id_desc.
  pose proof (IdSort.StronglySorted_sort table IdDesc_leb_trans) as Hs.
  induction Hs as [| a l Hl IH Ha]; constructor; [exact IH |].
  eapply Forall_impl; [| exact Ha].
  intros b Hb. unfold IdDesc.leb, id_desc_leb, is_true in Hb. now apply Z.leb_le.
Qed.

(** A fetch returns its rows newest first, whatever the store holds. *)
Lemma fetched_newest_first (limit : Z) (c : Cloud) :
  newest_first (fetched limit c).
Proof.
  unfold fetched. destruct (outage c (trips c)).
  - constructor.
  - apply StronglySorted_firstn, order_id_desc_newest_first.
Qed.

Lemma fetched_length (limit : Z) (c : Cloud) :
  0 <= limit -> Z.of_nat (List.length (fetched limit c)) <= limit.
Proof.
  intros Hl. unfold fetched, limit_rows.
  destruct (outage c (trips c)); simpl; [lia |].
  rewrite length_firstn. lia.
Qed.

(** ** Sorting by timestamp *)

Lemma Sorted_map_key {A : Type} (key : A -> Z) (l : list A) :
  Sorted (fun a b => key a <= key b) l -> Sorted Z.le (map key l).
Proof.
  induction 1 as [| a l Hl IH Ha]; simpl; constructor; [exact IH |].
  destruct Ha; simpl; constructor; assumption.
Qed.

Lemma sort_values_Sorted (df : DataFrame) :
  Sorted (fun a b => instant (Timestamp a) <= instant (Timestamp b)) (sort_values df).
Proof.
  unfold sort_values.
  pose proof (TimestampSort.Sorted_sort df) as Hs.
  induction Hs as [| a l Hl IH Ha]; constructor; [exact IH |].
  destruct Ha as [| b l' Hab]; constructor.
  unfold TimestampAsc.leb, timestamp_leb, is_true in Hab. now apply Z.leb_le.
Qed.

Lemma sort_values_Permutation (df : DataFrame) :
  Permutation (sort_values df) df.
Proof. symmetry. apply TimestampSort.Permuted_sort. Qed.

Lemma points_ascending (y : YColumn) (df : DataFrame) :
  ascending (points y (sort_values df)).
Proof.
  unfold ascending, points. rewrite map_map. simpl.
  apply (Sorted_map_key (fun s => instant (Timestamp s))), sort_values_Sorted.
Qed.

Lemma pairs_of_frame (y : YColumn) (rows : list Row) :
  pairs_of_series (points y (map localize (DataFrame_of rows))) = pairs_of_rows y rows.
Proof.
  unfold pairs_of_series, points, pairs_of_rows, DataFrame_of.
  rewrite !map_map. apply map_ext. intros r. now destruct y.
Qed.

Lemma points_round_trip (y : YColumn) (rows : list Row) :
  Permutation
    (pairs_of_series (points y (sort_values (map localize (DataFrame_of rows)))))
    (pairs_of_rows y rows).
Proof.
  rewrite <- pairs_of_frame.
  unfold pairs_of_series, points.
  do 2 apply Permutation_map. apply sort_values_Permutation.
Qed.

(** ** Converting the timestamps *)

Lemma convert_Timestamp_Ret (df df' : DataFrame) :
  convert_Timestamp df = Ret df' -> df' = map localize df /\ df <> [].
Proof.
  destruct df as [| s df]; [discriminate |].
  unfold convert_Timestamp, py_bind.
  destruct (to_datetime (map Timestamp (s :: df))); [| discriminate].
  intros [= <-]. split; [reflexivity | discriminate].
Qed.

Lemma to_datetime_Raise (column : list datetime) (e : Exn) :
  to_datetime column = Raise e -> exists msg, e = ValueError msg.
Proof.
  destruct column as [| first column]; [discriminate |].
  unfold to_datetime.
  repeat match goal with
         | |- context [if ?b then _ else _] => destruct b
         end; intros [= <-]; eexists; reflexivity.
Qed.

(** On a frame that has rows, the conversion returns the localized frame
    or raises a value error. *)
Lemma convert_Timestamp_cases (df : DataFrame) :
  df <> [] ->
  convert_Timestamp df = Ret (map localize df) \/
  exists msg, convert_Timestamp df = Raise (ValueError msg).
Proof.
  intros Hne. destruct df as [| s df]; [contradiction |].
  unfold convert_Timestamp, py_bind.
  destruct (to_datetime (map Timestamp (s :: df))) as [col | e] eqn:E.
  - now left.
  - right. apply to_datetime_Raise in E as [msg ->]. now exists msg.
Qed.

Lemma DataFrame_of_not_nil (rows : list Row) :
  rows <> [] -> DataFrame_of rows <> [].
Proof. destruct rows; [contradiction | discriminate]. Qed.

Lemma view_result_cases (rows : list Row) :
  view_result rows = Ret tt \/ exists msg, view_result rows = Raise (ValueError msg).
Proof.
  destruct rows as [| r rest]; [now left |].
  unfold view_result.
  destruct (convert_Timestamp_cases (DataFrame_of (r :: rest))) as [-> | [msg ->]];
    [discriminate | now left | right; now exists msg].
Qed.

Lemma view_result_converted (rows : list Row) (df : DataFrame) :
  convert_Timestamp (DataFrame_of rows) = Ret df -> view_result rows = Ret tt.
Proof.
  intros H. destruct rows as [| r rest]; [reflexivity |].
  unfold view_result. now rewrite H.
Qed.

(** ** What the views draw *)

Lemma show_live_monitor_run (w : World) :
  show_live_monitor w =
  (view_result (fetched 50 (cloud w)),
   {| cloud := cloud (tick w);
      frame := frame w ++ live_drawn (fetched 50 (cloud w)) |}).
Proof.
  unfold show_live_monitor, bind at 1.
  rewrite get_latest_data_run.
  destruct (fetched 50 (cloud w)) as [| r rest]; [reflexivity |].
  unfold bind at 1. unfold lift at 1. unfold view_result, live_drawn.
  destruct (convert_Timestamp (DataFrame_of (r :: rest))) as [df | e] eqn:E.
  - apply convert_Timestamp_Ret in E as [-> _].
    unfold bind, lift, st; simpl.
    repeat rewrite <- app_assoc. reflexivity.
  - simpl. now rewrite app_nil_r.
Qed.

Lemma show_history_run (w : World) :
  show_history w =
  (view_result (fetched 1000 (cloud w)),
   {| cloud := cloud (tick w);
      frame := frame w ++ history_drawn (fetched 1000 (cloud w)) |}).
Proof.
  unfold show_history, bind at 1. unfold st at 1. unfold bind at 1.
  rewrite get_latest_data_run. cbn [cloud frame tick].
  destruct (fetched 1000 (cloud w)) as [| r rest].
  - unfold st, history_drawn; simpl. now rewrite <- app_assoc.
  - unfold bind at 1. unfold lift at 1. unfold view_result, history_drawn.
    destruct (convert_Timestamp (DataFrame_of (r :: rest))) as [df | e] eqn:E.
    + apply convert_Timestamp_Ret in E as [-> _].
      unfold bind, st; simpl.
      repeat rewrite <- app_assoc. reflexivity.
    + reflexivity.
Qed.

Lemma rerun_show_live_monitor (w : World) :
  frame (rerun show_live_monitor w) = live_frame (fetched 50 (cloud w)).
Proof.
  unfold rerun. rewrite show_live_monitor_run. unfold live_frame, shown.
  cbn [cloud frame].
  destruct (view_result (fetched 50 (cloud w))); reflexivity.
Qed.

Lemma rerun_show_history (w : World) :
  frame (rerun show_history w) = history_frame (fetched 1000 (cloud w)).
Proof.
  unfold rerun. rewrite show_history_run. unfold history_frame, shown.
  cbn [cloud frame].
  destruct (view_result (fetched 1000 (cloud w))); reflexivity.
Qed.

Lemma cloud_rerun_show_live_monitor (w : World) :
  cloud (rerun show_live_monitor w) = cloud (tick w).
Proof.
  unfold rerun. rewrite show_live_monitor_run. cbn [cloud frame].
  destruct (view_result (fetched 50 (cloud w))); reflexivity.
Qed.

Lemma cloud_rerun_show_history (w : World) :
  cloud (rerun show_history w) = cloud (tick w).
Proof.
  unfold rerun. rewrite show_history_run. cbn [cloud frame].
  destruct (view_result (fetched 1000 (cloud w))); reflexivity.
Qed.

(** The frames on a batch the conversion accepts. *)
Lemma live_frame_converted (r : Row) (rest : list Row) (df : DataFrame) :
  convert_Timestamp (DataFrame_of (r :: rest)) = Ret df ->
  live_frame (r :: rest) =
  let latest := localize (rename r) in
  let band := classify (int (AQI latest)) in
  [Title "🟢 Live AQI Monitoring";
   Metric "AQI Level" (IntValue (int (AQI latest)));
   Metric "Temperature" (WithUnit (Temperature latest) "°C");
   Metric "Humidity" (WithUnit (Humidity latest) "%");
   Caption ("Last Updated: " ++ strftime_HMS (Timestamp latest));
   StatusBar (status band) (color band) (int (AQI latest));
   Markdown "---";
   Subheader "📈 Live Trend";
   PlotlyChart
     (px_line (sort_values (map localize (DataFrame_of (r :: rest))))
        (YName yAQI) None true (Some 300))].
Proof.
  intros H. unfold live_frame, live_drawn, view_result. now rewrite H.
Qed.

Lemma history_frame_converted (r : Row) (rest : list Row) (df : DataFrame) :
  convert_Timestamp (DataFrame_of (r :: rest)) = Ret df ->
  history_frame (r :: rest) =
  [Title "📁 Historical Data";
   Subheader "📊 Full History Trends";
   PlotlyChart
     (px_line (sort_values (map localize (DataFrame_of (r :: rest))))
        (YNames [yAQI; yTemperature; yHumidity])
        (Some "Environmental Data Over Time") false None);
   Subheader "📄 Data Log (Newest First)";
   Dataframe (map localize (DataFrame_of (r :: rest)))].
Proof.
  intros H. unfold history_frame, history_drawn, view_result. now rewrite H.
Qed.

(** The frames on a batch the conversion refuses. *)
Lemma live_frame_refused (r : Row) (rest : list Row) (e : Exn) :
  convert_Timestamp (DataFrame_of (r :: rest)) = Raise e ->
  live_frame (r :: rest) = [ExceptionBox e].
Proof.
  intros H. unfold live_frame, live_drawn, view_result. now rewrite H.
Qed.

Lemma history_frame_refused (r : Row) (rest : list Row) (e : Exn) :
  convert_Timestamp (DataFrame_of (r :: rest)) = Raise e ->
  history_frame (r :: rest) = [Title "📁 Historical Data"; ExceptionBox e].
Proof.
  intros H. unfold history_frame, history_drawn, view_result. now rewrite H.
Qed.

Lemma convert_Timestamp_dec (df : DataFrame) :
  (exists df', convert_Timestamp df = Ret df') \/
  (exists e, convert_Timestamp df = Raise e).
Proof.
  destruct (convert_Timestamp df) as [df' | e]; [left | right]; eexists; reflexivity.
Qed.

(** ** Reading a frame back *)

Lemma chart_points_live (rows : list Row) (df : DataFrame) :
  convert_Timestamp (DataFrame_of rows) = Ret df ->
  chart_points "" (live_frame rows) = points yAQI (sort_values df).
Proof.
  intros H. destruct rows as [| r rest]; [discriminate |].
  rewrite (live_frame_converted r rest df H).
  apply convert_Timestamp_Ret in H as [-> _].
  unfold chart_points; simpl. now rewrite !app_nil_r.
Qed.

Lemma chart_points_history (y : YColumn) (rows : list Row) (df : DataFrame) :
  convert_Timestamp (DataFrame_of rows) = Ret df ->
  chart_points (column_name y) (history_frame rows) = points y (sort_values df).
Proof.
  intros H. destruct rows as [| r rest]; [discriminate |].
  rewrite (history_frame_converted r rest df H).
  apply convert_Timestamp_Ret in H as [-> _].
  unfold chart_points. destruct y; simpl; now rewrite !app_nil_r.
Qed.

(** Where no chart is drawn, no point is read back. *)
Lemma chart_points_live_none (name : string) (rows : list Row) :
  rows = [] \/ (exists e, convert_Timestamp (DataFrame_of rows) = Raise e) ->
  chart_points name (live_frame rows) = [].
Proof.
  intros [-> | [e H]]; [reflexivity |].
  destruct rows as [| r rest]; [reflexivity |].
  now rewrite (live_frame_refused r rest e H).
Qed.

Lemma chart_points_history_none (name : string) (rows : list Row) :
  rows = [] \/ (exists e, convert_Timestamp (DataFrame_of rows) = Raise e) ->
  chart_points name (history_frame rows) = [].
Proof.
  intros [-> | [e H]]; [reflexivity |].
  destruct rows as [| r rest]; [reflexivity |].
  now rewrite (history_frame_refused r rest e H).
Qed.

Lemma run_every_last (n : nat) (body : M unit) (w : World) :
  run_every (S n) body w = rerun body (run_every n body w).
Proof.
  revert w. induction n as [| n IH]; intros w; [reflexivity |].
  change (run_every (S (S n)) body w) with (run_every (S n) body (rerun body w)).
  now rewrite IH.
Qed.

(** ** Truncation *)

Lemma int_nonneg (x : Q) : 0 <= Qnum x -> int x = Qfloor x.
Proof.
  destruct x as [n d]; simpl. intros Hn.
  unfold int; simpl. apply Z.quot_div_nonneg; lia.
Qed.

Lemma int_neg (x : Q) : Qnum x < 0 -> int x = Qceiling x.
Proof.
  destruct x as [n d]; simpl. intros Hn.
  unfold int, Qceiling; simpl.
  rewrite <- (Z.opp_involutive n) at 1.
  rewrite Z.quot_opp_l by lia.
  rewrite Z.quot_div_nonneg by lia. reflexivity.
Qed.

Lemma int_below_51 (x : Q) : (x < 51)%Q -> int x <= 50.
Proof.
  destruct x as [n d]. unfold Qlt; simpl. intros Hx.
  destruct (Z.lt_ge_cases n 0) as [Hn | Hn].
  - rewrite int_neg by exact Hn. unfold Qceiling; simpl.
    assert (0 <= - n / Z.pos d) by (apply Z.div_pos; lia). lia.
  - rewrite int_nonneg by exact Hn. simpl.
    assert (n / Z.pos d < 51) by (apply Z.div_lt_upper_bound; lia). lia.
Qed.

Lemma classify_range (a : Z) :
  match classify a with
  | Good => a <= 50
  | Moderate => 50 < a <= 100
  | UnhealthySensitive => 100 < a <= 150
  | Unhealthy => 150 < a <= 200
  | VeryUnhealthy => 200 < a <= 300
  | Hazardous => 300 < a
  end.
Proof.
  unfold classify.
  repeat match goal with
         | |- context [a <=? ?y] => destruct (Z.leb_spec a y)
         end; lia.
Qed.

Lemma int_le_iff (x : Q) (k : Z) :
  0 <= k -> (int x <= k <-> (x < inject_Z (k + 1))%Q).
Proof.
  intros Hk. destruct x as [n d]. unfold Qlt, inject_Z; simpl.
  destruct (Z.lt_ge_cases n 0) as [Hn | Hn].
  - rewrite int_neg by exact Hn. unfold Qceiling; simpl.
    assert (0 <= - n / Z.pos d) by (apply Z.div_pos; lia).
    split; intros _; [nia | lia].
  - rewrite int_nonneg by exact Hn. simpl.
    pose proof (Z.div_mod n (Z.pos d)).
    pose proof (Z.mod_pos_bound n (Z.pos d)).
    split; intros H'.
    + nia.
    + assert (n / Z.pos d < k + 1) by (apply Z.div_lt_upper_bound; lia). lia.
Qed.

Lemma int_gt_iff (x : Q) (k : Z) :
  0 <= k -> (k < int x <-> (inject_Z (k + 1) <= x)%Q).
Proof.
  intros Hk. pose proof (int_le_iff x k Hk) as Hle. split.
  - intros Hgt. apply Qnot_lt_le. intros Hlt. apply Hle in Hlt. lia.
  - intros Hge. apply Z.nle_gt. intros Hint. apply Hle in Hint.
    exact (Qle_not_lt _ _ Hge Hint).
Qed.

Lemma classify_iff (a : Z) :
  (classify a = Good <-> a <= 50) /\
  (classify a = Moderate <-> 50 < a /\ a <= 100) /\
  (classify a = UnhealthySensitive <-> 100 < a /\ a <= 150) /\
  (classify a = Unhealthy <-> 150 < a /\ a <= 200) /\
  (classify a = VeryUnhealthy <-> 200 < a /\ a <= 300) /\
  (classify a = Hazardous <-> 300 < a).
Proof.
  pose proof (classify_range a) as Hr.
  destruct (classify a); repeat split; intros; try discriminate; lia.
Qed.

Lemma classify_int_iff (x : Q) :
  (classify (int x) = Good <-> (x < 51)%Q) /\
  (classify (int x) = Moderate <-> (51 <= x < 101)%Q) /\
  (classify (int x) = UnhealthySensitive <-> (101 <= x < 151)%Q) /\
  (classify (int x) = Unhealthy <-> (151 <= x < 201)%Q) /\
  (classify (int x) = VeryUnhealthy <-> (201 <= x < 301)%Q) /\
  (classify (int x) = Hazardous <-> (301 <= x)%Q).
Proof.
  destruct (classify_iff (int x)) as (G & Mo & US & U & V & Hz).
  pose proof (int_le_iff x 50 ltac:(lia)) as L50.
  pose proof (int_le_iff x 100 ltac:(lia)) as L100.
  pose proof (int_le_iff x 150 ltac:(lia)) as L150.
  pose proof (int_le_iff x 200 ltac:(lia)) as L200.
  pose proof (int_le_iff x 300 ltac:(lia)) as L300.
  pose proof (int_gt_iff x 50 ltac:(lia)) as G50.
  pose proof (int_gt_iff x 100 ltac:(lia)) as G100.
  pose proof (int_gt_iff x 150 ltac:(lia)) as G150.
  pose proof (int_gt_iff x 200 ltac:(lia)) as G200.
  pose proof (int_gt_iff x 300 ltac:(lia)) as G300.
  change (inject_Z (50 + 1)) with 51%Q in L50, G50.
  change (inject_Z (100 + 1)) with 101%Q in L100, G100.
  change (inject_Z (150 + 1)) with 151%Q in L150, G150.
  change (inject_Z (200 + 1)) with 201%Q in L200, G200.
  change (inject_Z (300 + 1)) with 301%Q in L300, G300.
  split; [rewrite G; exact L50 |].
  split; [rewrite Mo, G50, L100; reflexivity |].
  split; [rewrite US, G100, L150; reflexivity |].
  split; [rewrite U, G150, L200; reflexivity |].
  split; [rewrite V, G200, L300; reflexivity |].
  rewrite Hz. exact G300.
Qed.

(** ** Batches the conversion refuses *)

(** A batch whose newest row carries microseconds while the others do
    not: the live view draws nothing but the exception. *)
Example mixed_batch_raises :
  fst (get_latest_data 50 (mkWorld cloud_mixed [])) = Ret [r6; r5; r4; r3] /\
  frame (rerun show_live_monitor (mkWorld cloud_mixed [])) =
    [ExceptionBox (ValueError "time data doesn't match format")] /\
  frame (rerun show_history (mkWorld cloud_mixed [])) =
    [Title "📁 Historical Data";
     ExceptionBox (ValueError "time data doesn't match format")].
Proof. repeat split. Qed.

(** A batch written at two UTC offsets is refused as well. *)
Example mixed_offsets_raise :
  exists msg, convert_Timestamp (DataFrame_of [r7; r5]) = Raise (ValueError msg).
Proof. eexists. reflexivity. Qed.

(** ** A refresh cycle on a thousand samples *)

(** The live view on a store holding the samples 1 to 1000: the newest
    row, of id 1000, gives the value shown, and the chart has fifty
    points, from the sample 951 to the sample 1000. *)
Example live_scenario :
  let fr := frame (rerun show_live_monitor
                     (mkWorld (mkCloud (fun _ => map sample_row (seq 1 1000))
                                 (fun _ => None) 0%nat) [])) in
  map id (fetched 50 (mkCloud (fun _ => map sample_row (seq 1 1000))
                        (fun _ => None) 0%nat))
    = map Z.of_nat (rev (seq 951 50)) /\
  In (Metric "AQI Level" (IntValue (int (aqi (sample_row 1000))))) fr /\
  map (fun p => instant (fst p)) (chart_points "" fr)
    = map (fun n => instant (created_at (sample_row n))) (seq 951 50).
Proof.
  vm_compute. repeat split. now left + (right; left).
Qed.

(** * The claims *)

(** C1. The boundary values fall as the threshold table dictates:
    50 is Good, 51 Moderate, 300 VeryUnhealthy and 301 Hazardous; and the
    six bands are exactly the intervals whose inclusive upper ends are
    50, 100, 150, 200 and 300, the last band having no upper end. *)
Theorem classify_boundaries :
  classify 50 = Good /\
  classify 51 = Moderate /\
  classify 300 = VeryUnhealthy /\
  classify 301 = Hazardous /\
  forall a : Z,
    (classify a = Good <-> a <= 50) /\
    (classify a = Moderate <-> 50 < a <= 100) /\
    (classify a = UnhealthySensitive <-> 100 < a <= 150) /\
    (classify a = Unhealthy <-> 150 < a <= 200) /\
    (classify a = VeryUnhealthy <-> 200 < a <= 300) /\
    (classify a = Hazardous <-> 300 < a).
Proof.
  repeat (split; [reflexivity |]).
  intros a. unfold classify.
  repeat match goal with
         | |- context [?x <=? ?y] => destruct (Z.leb_spec x y)
         end;
    repeat split; intros; try discriminate; try reflexivity; lia.
Qed.

(** C2. When the fetch of a refresh cycle of the live view returns no
    row, the frame after the cycle is the "Connecting to cloud..."
    indicator alone, whatever the frame before the cycle showed; so it is
    after any number of earlier firings of the timer. *)
Theorem empty_fetch_shows_indicator :
  forall (w : World),
    fst (get_latest_data 50 w) = Ret [] ->
    frame (rerun show_live_monitor w) = [Info "Connecting to cloud..."] /\
    forall (n : nat) (w0 : World),
      w = run_every n show_live_monitor w0 ->
      frame (run_every (S n) show_live_monitor w0) = [Info "Connecting to cloud..."].
Proof.
  intros w Hfetch. apply got_rows in Hfetch.
  assert (Hframe : frame (rerun show_live_monitor w) = [Info "Connecting to cloud..."])
    by now rewrite rerun_show_live_monitor, Hfetch.
  split; [exact Hframe |].
  intros n w0 ->. now rewrite run_every_last.
Qed.

(** After a first cycle that drew data, the second cycle meets a failing
    link and leaves nothing of the first frame. *)
Lemma empty_fetch_shows_indicator_witness :
  charts (frame (rerun show_live_monitor (mkWorld cloud_flaky []))) <> [] /\
  frame (run_every 2 show_live_monitor (mkWorld cloud_flaky [])) =
  [Info "Connecting to cloud..."].
Proof.
  split; [discriminate |].
  refine (proj2 (empty_fetch_shows_indicator
                   (rerun show_live_monitor (mkWorld cloud_flaky [])) _)
            1%nat (mkWorld cloud_flaky []) _).
  - reflexivity.
  - reflexivity.
Defined.

(** C3. For a positive limit, a fetch whose round trip fails returns the
    empty list to its caller instead of raising, and it has made exactly
    one round trip: it does not try again, even when the next round trip
    would succeed. *)
Theorem get_latest_data_failure :
  forall (limit : Z) (w : World) (e : Exn),
    0 < limit ->
    outage (cloud w) (trips (cloud w)) = Some e ->
    fst (get_latest_data limit w) = Ret [] /\
    trips (cloud (snd (get_latest_data limit w))) = S (trips (cloud w)) /\
    frame (snd (get_latest_data limit w)) = frame w.
Proof.
  intros limit w e _ Hout.
  rewrite get_latest_data_run. unfold fetched. rewrite Hout.
  repeat split.
Qed.

Lemma get_latest_data_failure_witness :
  fst (get_latest_data 50 (mkWorld (mkCloud (fun _ => [r5; r4; r3])
         (fun n => match n with O => Some (ConnectError "timed out") | S _ => None end)
         0%nat) [])) = Ret [].
Proof.
  refine (proj1 (get_latest_data_failure 50 _ (ConnectError "timed out") _ _)).
  - reflexivity.
  - reflexivity.
Defined.

(** C4. For a non-empty batch of fetched rows whose timestamps the
    conversion accepts, each view draws one chart with one line per
    plotted column; every line is the rows of the batch sorted again by
    timestamp: its instants never decrease, oldest first, and its points
    are the (timestamp, value) pairs of the rows, rearranged. *)
Theorem series_ascending :
  forall (w : World) (rows : list Row) (df : DataFrame),
    rows <> [] ->
    convert_Timestamp (DataFrame_of rows) = Ret df ->
    (fst (get_latest_data 50 w) = Ret rows ->
     exists pts,
       map traces (charts (frame (rerun show_live_monitor w))) = [[("", pts)]] /\
       ascending pts /\
       Permutation (pairs_of_series pts) (pairs_of_rows yAQI rows)) /\
    (fst (get_latest_data 1000 w) = Ret rows ->
     exists p_aqi p_temp p_hum,
       map traces (charts (frame (rerun show_history w))) =
         [[("AQI", p_aqi); ("Temperature", p_temp); ("Humidity", p_hum)]] /\
       (ascending p_aqi /\ ascending p_temp /\ ascending p_hum) /\
       Permutation (pairs_of_series p_aqi) (pairs_of_rows yAQI rows) /\
       Permutation (pairs_of_series p_temp) (pairs_of_rows yTemperature rows) /\
       Permutation (pairs_of_series p_hum) (pairs_of_rows yHumidity rows)).
Proof.
  intros w rows df Hne Hconv.
  destruct rows as [| r rest]; [contradiction |].
  split; intros Hfetch; apply got_rows in Hfetch.
  - rewrite rerun_show_live_monitor, Hfetch, (live_frame_converted r rest df Hconv).
    eexists. split; [reflexivity |].
    split; [apply points_ascending | apply points_round_trip].
  - rewrite rerun_show_history, Hfetch, (history_frame_converted r rest df Hconv).
    do 3 eexists. split; [reflexivity |].
    split; [repeat split; apply points_ascending |].
    repeat split; apply points_round_trip.
Qed.

Lemma series_ascending_witness :
  exists pts,
    map traces (charts (frame (rerun show_live_monitor (mkWorld cloud_up []))))
      = [[("", pts)]] /\
    ascending pts /\
    Permutation (pairs_of_series pts) (pairs_of_rows yAQI [r5; r4; r3]).
Proof.
  refine (proj1 (series_ascending (mkWorld cloud_up []) [r5; r4; r3]
                   (map localize (DataFrame_of [r5; r4; r3])) _ _) _).
  - discriminate.
  - reflexivity.
  - reflexivity.
Defined.

(** C5. On rows in newest-first order, the latest reading is the first
    row, and no row has a larger id; so it is after the timestamps are
    converted, when the conversion accepts them.  On the three rows of
    ids 5, 4, 3 it is the row of id 5.  On no rows at all, taking the
    latest reading raises an index error; the live view tests its rows
    first and so never ends with that error. *)
Theorem latest_is_first :
  (forall (rows : list Row),
      newest_first rows ->
      rows <> [] ->
      exists r,
        hd_error rows = Some r /\
        iloc0 (DataFrame_of rows) = Ret (rename r) /\
        (forall df, convert_Timestamp (DataFrame_of rows) = Ret df ->
                    iloc0 df = Ret (localize (rename r))) /\
        forall r', In r' rows -> id r' <= id r) /\
  iloc0 (DataFrame_of [r5; r4; r3]) = Ret (rename r5) /\
  (exists msg, iloc0 (DataFrame_of []) = Raise (IndexError msg)) /\
  (forall (w : World) (msg : string),
      fst (show_live_monitor w) <> Raise (IndexError msg)).
Proof.
  split; [| split; [reflexivity | split; [eexists; reflexivity |]]].
  2: { intros w msg. rewrite show_live_monitor_run. cbn [fst].
       destruct (view_result_cases (fetched 50 (cloud w))) as [-> | [m ->]];
         discriminate. }
  intros rows Hsorted Hne.
  destruct rows as [| r rest]; [contradiction |].
  exists r. split; [reflexivity |]. split; [reflexivity |].
  split.
  { intros df Hconv. apply convert_Timestamp_Ret in Hconv as [-> _]. reflexivity. }
  intros r' [<- | Hin]; [lia |].
  apply StronglySorted_inv in Hsorted as [_ Hall].
  rewrite Forall_forall in Hall. now apply Hall.
Qed.

Lemma latest_is_first_witness :
  exists r,
    hd_error [r5; r4; r3] = Some r /\
    iloc0 (DataFrame_of [r5; r4; r3]) = Ret (rename r) /\
    (forall df, convert_Timestamp (DataFrame_of [r5; r4; r3]) = Ret df ->
                iloc0 df = Ret (localize (rename r))) /\
    forall r', In r' [r5; r4; r3] -> id r' <= id r.
Proof.
  refine (proj1 latest_is_first [r5; r4; r3] _ _).
  - unfold newest_first. repeat constructor; simpl; lia.
  - discriminate.
Defined.

(** C6. [classify] is monotonic: a larger AQI value never gets a less
    severe band than a smaller one. *)
Theorem classify_monotonic :
  forall (a b : Z), a <= b -> severity (classify a) <= severity (classify b).
Proof.
  intros a b Hab. unfold classify.
  repeat match goal with
         | |- context [?x <=? ?y] => destruct (Z.leb_spec x y)
         end; simpl; lia.
Qed.

Lemma classify_monotonic_witness :
  50 <= 51 /\ severity (classify 50) <= severity (classify 51).
Proof.
  split; [lia | apply (classify_monotonic 50 51); lia].
Defined.

(** C7. [classify] gives every integer exactly one band; every value
    above 300 is Hazardous, however large; every negative value is Good,
    which is the band of the value clamped to zero. *)
Theorem classify_total :
  (forall a : Z, exists! b : SeverityBand, classify a = b) /\
  (forall a : Z, 300 < a -> classify a = Hazardous) /\
  (forall a : Z, a < 0 -> classify a = Good) /\
  (forall a : Z, classify a = classify (Z.max 0 a)).
Proof.
  repeat split.
  - intros a. exists (classify a). split; [reflexivity | now intros b' <-].
  - intros a Ha. unfold classify.
    repeat match goal with
           | |- context [?x <=? ?y] => destruct (Z.leb_spec x y)
           end; try reflexivity; lia.
  - intros a Ha. unfold classify.
    destruct (Z.leb_spec a 50); [reflexivity | lia].
  - intros a. destruct (Z.max_spec 0 a) as [[Ha ->] | [Ha ->]]; [reflexivity |].
    unfold classify. destruct (Z.leb_spec a 50); [reflexivity | lia].
Qed.

Lemma classify_total_witness :
  classify 1000000 = Hazardous /\
  classify (-7) = Good /\
  classify (-7) = classify (Z.max 0 (-7)).
Proof.
  destruct classify_total as (_ & Hhigh & Hneg & Hclamp).
  split; [apply Hhigh; lia |].
  split; [apply Hneg; lia | apply Hclamp].
Defined.

(** C8. Every (timestamp, value) pair of a fetched batch is plotted once
    and only once: for a batch that is empty or whose timestamps the
    conversion accepts, the pairs read back from the chart of a view are
    a rearrangement of the pairs of the rows, whatever the size of the
    batch, in particular 0, 1 and 1000.  This holds for the line of the
    live view and for each of the three lines of the historical view. *)
Theorem round_trip_pairs :
  forall (w : World) (rows : list Row),
    rows = [] \/ (exists df, convert_Timestamp (DataFrame_of rows) = Ret df) ->
    (fst (get_latest_data 50 w) = Ret rows ->
     Permutation
       (pairs_of_series (chart_points "" (frame (rerun show_live_monitor w))))
       (pairs_of_rows yAQI rows)) /\
    (fst (get_latest_data 1000 w) = Ret rows ->
     forall y : YColumn,
       Permutation
         (pairs_of_series
            (chart_points (column_name y) (frame (rerun show_history w))))
         (pairs_of_rows y rows)).
Proof.
  intros w rows Hrows. split; intros Hfetch; apply got_rows in Hfetch.
  - rewrite rerun_show_live_monitor, Hfetch.
    destruct Hrows as [-> | [df Hconv]]; [constructor |].
    rewrite (chart_points_live rows df Hconv).
    apply convert_Timestamp_Ret in Hconv as [-> _]. apply points_round_trip.
  - intros y. rewrite rerun_show_history, Hfetch.
    destruct Hrows as [-> | [df Hconv]]; [destruct y; constructor |].
    rewrite (chart_points_history y rows df Hconv).
    apply convert_Timestamp_Ret in Hconv as [-> _]. apply points_round_trip.
Qed.

(** Batches of size 1000, 1 and 0. *)
Lemma round_trip_pairs_witness :
  (forall y : YColumn,
      Permutation
        (pairs_of_series
           (chart_points (column_name y) (frame (rerun show_history (mkWorld cloud_big [])))))
        (pairs_of_rows y (map sample_row (rev (seq 201 1000))))) /\
  Permutation
    (pairs_of_series
       (chart_points "" (frame (rerun show_live_monitor (mkWorld cloud_zero [])))))
    (pairs_of_rows yAQI [mkRow 1 (mkDatetime 1700000000000000 0) 0 0 0 0]) /\
  Permutation
    (pairs_of_series
       (chart_points "" (frame (rerun show_live_monitor (mkWorld cloud_empty [])))))
    (pairs_of_rows yAQI []).
Proof.
  split; [| split].
  - refine (proj2 (round_trip_pairs (mkWorld cloud_big [])
                     (map sample_row (rev (seq 201 1000))) _) _).
    + right. eexists. vm_compute. reflexivity.
    + vm_compute. reflexivity.
  - refine (proj1 (round_trip_pairs (mkWorld cloud_zero []) _ _) _).
    + right. eexists. reflexivity.
    + reflexivity.
  - refine (proj1 (round_trip_pairs (mkWorld cloud_empty []) [] _) _).
    + now left.
    + reflexivity.
Defined.

(** C9. When the fetch of the historical view returns no row, the view
    ends normally and draws its title and the text "No data found.", and
    no chart.  When the fetch returns rows, even rows of zeros, that
    text is not drawn, and a chart is drawn when the conversion accepts
    the timestamps: the two cases cannot be mistaken for each other. *)
Theorem history_empty_is_explicit :
  forall (w : World),
    (fst (get_latest_data 1000 w) = Ret [] ->
     fst (show_history w) = Ret tt /\
     frame (rerun show_history w) =
       [Title "📁 Historical Data"; Write "No data found."] /\
     charts (frame (rerun show_history w)) = []) /\
    (forall rows : list Row,
        rows <> [] ->
        fst (get_latest_data 1000 w) = Ret rows ->
        ~ In (Write "No data found.") (frame (rerun show_history w)) /\
        (forall df, convert_Timestamp (DataFrame_of rows) = Ret df ->
                    charts (frame (rerun show_history w)) <> [])).
Proof.
  intros w. split.
  - intros Hfetch. apply got_rows in Hfetch.
    rewrite show_history_run, rerun_show_history, Hfetch. repeat split.
  - intros rows Hne Hfetch. apply got_rows in Hfetch.
    rewrite rerun_show_history, Hfetch.
    destruct rows as [| r rest]; [contradiction |].
    split.
    + destruct (convert_Timestamp_dec (DataFrame_of (r :: rest))) as [[df H] | [e H]].
      * rewrite (history_frame_converted r rest df H).
        simpl. intuition discriminate.
      * rewrite (history_frame_refused r rest e H).
        simpl. intuition discriminate.
    + intros df H. rewrite (history_frame_converted r rest df H). discriminate.
Qed.

Lemma history_empty_is_explicit_witness :
  (fst (show_history (mkWorld cloud_empty [])) = Ret tt /\
   frame (rerun show_history (mkWorld cloud_empty [])) =
     [Title "📁 Historical Data"; Write "No data found."] /\
   charts (frame (rerun show_history (mkWorld cloud_empty []))) = []) /\
  (~ In (Write "No data found.") (frame (rerun show_history (mkWorld cloud_zero []))) /\
   charts (frame (rerun show_history (mkWorld cloud_zero []))) <> []).
Proof.
  split.
  - refine (proj1 (history_empty_is_explicit (mkWorld cloud_empty [])) _).
    reflexivity.
  - destruct (proj2 (history_empty_is_explicit (mkWorld cloud_zero []))
                [mkRow 1 (mkDatetime 1700000000000000 0) 0 0 0 0])
      as [Htext Hchart].
    + discriminate.
    + reflexivity.
    + split; [exact Htext |].
      eapply Hchart. reflexivity.
Defined.

(** C10. For a non-empty fetched batch whose timestamps the conversion
    accepts, the AQI value the live view shows and classifies is [int]
    of the newest row's stored value: the value truncated toward zero
    (rounded down when it is not negative, up when it is).  The band
    whose status and colour are shown is fixed by comparing the stored
    value with 51, 101, 151, 201 and 301: a stored 50.9 is shown as 50
    and Good, not Moderate, and a stored 51 is shown as Moderate.  On
    any batch, no other AQI level is ever shown. *)
Theorem live_aqi_is_truncated :
  forall (w : World) (r : Row) (rest : list Row),
    fst (get_latest_data 50 w) = Ret (r :: rest) ->
    let shown_aqi := int (aqi r) in
    let fr := frame (rerun show_live_monitor w) in
    (forall v, In (Metric "AQI Level" v) fr -> v = IntValue shown_aqi) /\
    shown_aqi = (if 0 <=? Qnum (aqi r) then Qfloor (aqi r) else Qceiling (aqi r)) /\
    (forall df,
        convert_Timestamp (DataFrame_of (r :: rest)) = Ret df ->
        In (Metric "AQI Level" (IntValue shown_aqi)) fr /\
        exists b,
          In (StatusBar (status b) (color b) shown_aqi) fr /\
          (b = Good <-> (aqi r < 51)%Q) /\
          (b = Moderate <-> (51 <= aqi r < 101)%Q) /\
          (b = UnhealthySensitive <-> (101 <= aqi r < 151)%Q) /\
          (b = Unhealthy <-> (151 <= aqi r < 201)%Q) /\
          (b = VeryUnhealthy <-> (201 <= aqi r < 301)%Q) /\
          (b = Hazardous <-> (301 <= aqi r)%Q)) /\
    ((aqi r == 509 # 10)%Q -> shown_aqi = 50) /\
    ((aqi r == 51)%Q -> shown_aqi = 51).
Proof.
  intros w r rest Hfetch shown_aqi fr. apply got_rows in Hfetch.
  subst fr. rewrite rerun_show_live_monitor, Hfetch.
  split.
  { intros v Hin.
    destruct (convert_Timestamp_dec (DataFrame_of (r :: rest))) as [[df H] | [e H]].
    - rewrite (live_frame_converted r rest df H) in Hin. simpl in Hin.
      repeat (destruct Hin as [Hin | Hin]; try discriminate Hin).
      + now injection Hin as <-.
      + destruct Hin.
    - rewrite (live_frame_refused r rest e H) in Hin.
      destruct Hin as [Hin | []]. discriminate Hin. }
  split.
  { subst shown_aqi. destruct (Z.leb_spec 0 (Qnum (aqi r))).
    - now apply int_nonneg.
    - now apply int_neg. }
  split.
  { intros df H. rewrite (live_frame_converted r rest df H).
    split; [simpl; auto |].
    exists (classify shown_aqi).
    split; [simpl; auto 10 |].
    exact (classify_int_iff (aqi r)). }
  split.
  - intros Heq. subst shown_aqi. destruct (aqi r) as [n d].
    unfold Qeq in Heq; simpl in Heq. unfold int; simpl.
    rewrite Z.quot_div_nonneg by lia.
    symmetry. apply Z.div_unique with (r := n - 50 * Z.pos d); lia.
  - intros Heq. subst shown_aqi. destruct (aqi r) as [n d].
    unfold Qeq in Heq; simpl in Heq. unfold int; simpl.
    rewrite Z.quot_div_nonneg by lia.
    symmetry. apply Z.div_unique with (r := 0); lia.
Qed.

Lemma live_aqi_is_truncated_witness :
  In (Metric "AQI Level" (IntValue 50))
     (frame (rerun show_live_monitor (mkWorld cloud_up []))) /\
  exists b,
    In (StatusBar (status b) (color b) 50)
       (frame (rerun show_live_monitor (mkWorld cloud_up []))) /\
    (b = Good <-> (aqi r5 < 51)%Q) /\
    (b = Moderate <-> (51 <= aqi r5 < 101)%Q) /\
    (b = UnhealthySensitive <-> (101 <= aqi r5 < 151)%Q) /\
    (b = Unhealthy <-> (151 <= aqi r5 < 201)%Q) /\
    (b = VeryUnhealthy <-> (201 <= aqi r5 < 301)%Q) /\
    (b = Hazardous <-> (301 <= aqi r5)%Q).
Proof.
  destruct (live_aqi_is_truncated (mkWorld cloud_up []) r5 [r4; r3])
    as (_ & _ & Hshown & _).
  - reflexivity.
  - apply (Hshown (map localize (DataFrame_of [r5; r4; r3]))). reflexivity.
Defined.

(** * Further properties *)

(** ** More on the fetch *)

Lemma StronglySorted_app_cross {A : Type} (R : A -> A -> Prop) (l1 l2 : list A) :
  StronglySorted R (l1 ++ l2) ->
  forall x y, In x l1 -> In y l2 -> R x y.
Proof.
  induction l1 as [| a l1 IH]; simpl; intros Hs x y Hx Hy; [contradiction |].
  apply StronglySorted_inv in Hs as [Hs Ha].
  destruct Hx as [<- | Hx].
  - rewrite Forall_forall in Ha. apply Ha, in_or_app. now right.
  - now apply IH.
Qed.

Lemma order_id_desc_Permutation (table : list Row) :
  Permutation (order_id_desc table) table.
Proof. symmetry. apply IdSort.Permuted_sort. Qed.

(** X1. With the link up and a positive limit, the fetch returns the
    rows of largest id of the table, newest first: as many as the limit
    allows, all of them rows of the table, and every row left out has an
    id no larger than any row returned. *)
Theorem get_latest_data_newest_rows :
  forall (limit : Z) (w : World),
    0 < limit ->
    outage (cloud w) (trips (cloud w)) = None ->
    let table := sensordata (cloud w) (trips (cloud w)) in
    exists rows omitted,
      fst (get_latest_data limit w) = Ret rows /\
      List.length rows = Nat.min (Z.to_nat limit) (List.length table) /\
      newest_first rows /\
      Permutation (rows ++ omitted) table /\
      forall r o, In r rows -> In o omitted -> id o <= id r.
Proof.
  intros limit w Hlimit Hup table.
  exists (firstn (Z.to_nat limit) (order_id_desc table)).
  exists (skipn (Z.to_nat limit) (order_id_desc table)).
  split.
  { rewrite fst_get_latest_data. unfold fetched. now rewrite Hup. }
  split.
  { rewrite length_firstn.
    now rewrite (Permutation_length (order_id_desc_Permutation table)). }
  split.
  { apply StronglySorted_firstn, order_id_desc_newest_first. }
  split.
  { rewrite firstn_skipn. apply order_id_desc_Permutation. }
  intros r o Hr Ho.
  pose proof (order_id_desc_newest_first table) as Hs.
  unfold newest_first in Hs.
  rewrite <- (firstn_skipn (Z.to_nat limit) (order_id_desc table)) in Hs.
  exact (StronglySorted_app_cross _ _ _ Hs r o Hr Ho).
Qed.

Lemma get_latest_data_newest_rows_witness :
  exists rows omitted,
    fst (get_latest_data 2 (mkWorld cloud_up [])) = Ret rows /\
    List.length rows = Nat.min (Z.to_nat 2) (List.length [r3; r5; r4]) /\
    newest_first rows /\
    Permutation (rows ++ omitted) [r3; r5; r4] /\
    forall r o, In r rows -> In o omitted -> id o <= id r.
Proof.
  apply (get_latest_data_newest_rows 2 (mkWorld cloud_up [])).
  - lia.
  - reflexivity.
Defined.

(** X2. For the same state of the store, a fetch with a smaller limit
    returns the first rows of a fetch with a larger limit: the batch of
    the live view is the head of the batch of the historical view. *)
Theorem get_latest_data_prefix :
  forall (l1 l2 : Z) (w1 w2 : World),
    0 < l1 <= l2 ->
    cloud w1 = cloud w2 ->
    exists rows1 rows2,
      fst (get_latest_data l1 w1) = Ret rows1 /\
      fst (get_latest_data l2 w2) = Ret rows2 /\
      rows1 = firstn (Z.to_nat l1) rows2.
Proof.
  intros l1 l2 w1 w2 Hl Hc.
  exists (fetched l1 (cloud w1)), (fetched l2 (cloud w2)).
  rewrite !fst_get_latest_data. repeat split.
  rewrite Hc. unfold fetched, limit_rows.
  destruct (outage (cloud w2) (trips (cloud w2))).
  - now rewrite firstn_nil.
  - rewrite firstn_firstn. f_equal. lia.
Qed.

Lemma get_latest_data_prefix_witness :
  exists rows1 rows2,
    fst (get_latest_data 50 (mkWorld cloud_big [])) = Ret rows1 /\
    fst (get_latest_data 1000 (mkWorld cloud_big [Info "earlier frame"])) = Ret rows2 /\
    rows1 = firstn (Z.to_nat 50) rows2.
Proof.
  apply (get_latest_data_prefix 50 1000).
  - lia.
  - reflexivity.
Defined.

(** ** Round trips *)

Lemma run_every_trips (n : nat) (w : World) :
  trips (cloud (run_every n show_live_monitor w)) = (trips (cloud w) + n)%nat.
Proof.
  revert w. induction n as [| n IH]; intros w; simpl; [lia |].
  rewrite IH, cloud_rerun_show_live_monitor. simpl. lia.
Qed.

Lemma view_result_guarded (rows : list Row) (msg : string) :
  view_result rows <> Raise (IndexError msg) /\
  view_result rows <> Raise (KeyError msg).
Proof.
  destruct (view_result_cases rows) as [-> | [m ->]]; split; discriminate.
Qed.

(** X3. The guards of the views hold: no run of a view ends with an
    index error or a key error, and the forecast view always ends
    normally.  A run of the live or of the historical view makes exactly
    one round trip to the store, a run of the forecast view none, and
    [n] firings of the timer make exactly [n]; no run changes what the
    store holds. *)
Theorem views_round_trips :
  forall (choice : Choice) (w : World),
    (forall msg, fst (router choice w) <> Raise (IndexError msg) /\
                 fst (router choice w) <> Raise (KeyError msg)) /\
    fst (router FutureData w) = Ret tt /\
    trips (cloud (rerun (router choice) w)) =
      (trips (cloud w) + match choice with FutureData => 0 | _ => 1 end)%nat /\
    sensordata (cloud (rerun (router choice) w)) = sensordata (cloud w) /\
    outage (cloud (rerun (router choice) w)) = outage (cloud w) /\
    forall n : nat,
      trips (cloud (run_every n show_live_monitor w)) = (trips (cloud w) + n)%nat.
Proof.
  intros choice w.
  split.
  { intros msg. destruct choice; simpl router.
    - rewrite show_live_monitor_run. apply view_result_guarded.
    - rewrite show_history_run. apply view_result_guarded.
    - split; discriminate. }
  split; [reflexivity |].
  split; [| split; [| split]].
  - destruct choice; simpl router.
    + rewrite cloud_rerun_show_live_monitor. simpl. lia.
    + rewrite cloud_rerun_show_history. simpl. lia.
    + simpl. lia.
  - destruct choice; simpl router.
    + now rewrite cloud_rerun_show_live_monitor.
    + now rewrite cloud_rerun_show_history.
    + reflexivity.
  - destruct choice; simpl router.
    + now rewrite cloud_rerun_show_live_monitor.
    + now rewrite cloud_rerun_show_history.
    + reflexivity.
  - intros n. apply run_every_trips.
Qed.

(** ** The shape of the frames *)

(** X4. After a cycle of the live view, the "Connecting to cloud..."
    indicator is on screen exactly when the fetch of that cycle returned
    no row.  When the fetch returned rows whose timestamps the
    conversion accepts, the frame is the nine elements of the monitor,
    headed by its title, with one chart, whatever the earlier cycles
    showed. *)
Theorem live_indicator_iff_empty :
  forall (w : World) (rows : list Row),
    fst (get_latest_data 50 w) = Ret rows ->
    let fr := frame (rerun show_live_monitor w) in
    (In (Info "Connecting to cloud...") fr <-> rows = []) /\
    (forall df,
        convert_Timestamp (DataFrame_of rows) = Ret df ->
        List.length fr = 9%nat /\
        hd_error fr = Some (Title "🟢 Live AQI Monitoring") /\
        List.length (charts fr) = 1%nat).
Proof.
  intros w rows Hfetch fr. apply got_rows in Hfetch.
  subst fr. rewrite rerun_show_live_monitor, Hfetch.
  split.
  - destruct rows as [| r rest].
    + split; [reflexivity | intros _; now left].
    + split; [| discriminate]. intros Hin. exfalso.
      destruct (convert_Timestamp_dec (DataFrame_of (r :: rest))) as [[df H] | [e H]].
      * rewrite (live_frame_converted r rest df H) in Hin.
        simpl in Hin. intuition discriminate.
      * rewrite (live_frame_refused r rest e H) in Hin.
        simpl in Hin. intuition discriminate.
  - intros df H. destruct rows as [| r rest]; [discriminate |].
    rewrite (live_frame_converted r rest df H). repeat split.
Qed.

Lemma live_indicator_iff_empty_witness :
  let fr := frame (run_every 3 show_live_monitor (mkWorld
              (mkCloud (fun _ => [r3; r5; r4])
                 (fun n => match n with 1%nat => Some (APIError "503") | _ => None end)
                 0%nat) [])) in
  (In (Info "Connecting to cloud...") fr <-> [r5; r4; r3] = []) /\
  (forall df,
      convert_Timestamp (DataFrame_of [r5; r4; r3]) = Ret df ->
      List.length fr = 9%nat /\
      hd_error fr = Some (Title "🟢 Live AQI Monitoring") /\
      List.length (charts fr) = 1%nat).
Proof.
  refine (live_indicator_iff_empty
            (run_every 2 show_live_monitor (mkWorld
               (mkCloud (fun _ => [r3; r5; r4])
                  (fun n => match n with 1%nat => Some (APIError "503") | _ => None end)
                  0%nat) []))
            [r5; r4; r3] _).
  reflexivity.
Defined.

Lemma sort_values_length (df : DataFrame) :
  List.length (sort_values df) = List.length df.
Proof. apply Permutation_length, sort_values_Permutation. Qed.

Lemma points_sorted_length (y : YColumn) (rows : list Row) :
  List.length (points y (sort_values (map localize (DataFrame_of rows))))
  = List.length rows.
Proof.
  unfold points, DataFrame_of.
  now rewrite length_map, sort_values_length, !length_map.
Qed.

Lemma live_frame_length (rows : list Row) :
  (List.length (live_frame rows) <= 9)%nat.
Proof.
  destruct rows as [| r rest]; [simpl; lia |].
  destruct (convert_Timestamp_dec (DataFrame_of (r :: rest))) as [[df H] | [e H]].
  - rewrite (live_frame_converted r rest df H). simpl. lia.
  - rewrite (live_frame_refused r rest e H). simpl. lia.
Qed.

Lemma chart_points_live_length (name : string) (rows : list Row) :
  (List.length (chart_points name (live_frame rows)) <= List.length rows)%nat.
Proof.
  destruct (convert_Timestamp_dec (DataFrame_of rows)) as [[df H] | [e H]].
  - destruct rows as [| r rest]; [discriminate |].
    rewrite (live_frame_converted r rest df H).
    unfold chart_points. cbn [charts flat_map px_line traces trace_points].
    destruct (String.eqb "" name).
    + rewrite !app_nil_r, points_sorted_length. lia.
    + simpl. lia.
  - rewrite chart_points_live_none by (right; now exists e). simpl. lia.
Qed.

Lemma chart_points_history_length (y : YColumn) (rows : list Row) :
  (List.length (chart_points (column_name y) (history_frame rows))
   <= List.length rows)%nat.
Proof.
  destruct (convert_Timestamp_dec (DataFrame_of rows)) as [[df H] | [e H]].
  - rewrite (chart_points_history y rows df H).
    apply convert_Timestamp_Ret in H as [-> _].
    rewrite points_sorted_length. lia.
  - rewrite chart_points_history_none by (right; now exists e). simpl. lia.
Qed.

(** X5. Frames do not pile up: after any number of timer firings the
    live frame has at most nine elements and its line at most fifty
    points, and each line of the historical view has at most a thousand
    points, however many rows the table holds. *)
Theorem frames_bounded :
  forall (w : World),
    (forall n : nat,
        let fr := frame (run_every (S n) show_live_monitor w) in
        (List.length fr <= 9)%nat /\
        (List.length (chart_points "AQI" fr) <= 50)%nat /\
        (List.length (chart_points "" fr) <= 50)%nat) /\
    (forall y : YColumn,
        (List.length (chart_points (column_name y) (frame (rerun show_history w)))
         <= 1000)%nat).
Proof.
  intros w. split.
  - intros n fr. subst fr.
    rewrite run_every_last, rerun_show_live_monitor.
    set (c := cloud (run_every n show_live_monitor w)).
    pose proof (fetched_length 50 c ltac:(lia)) as Hlen.
    split; [apply live_frame_length |].
    split.
    + pose proof (chart_points_live_length "AQI" (fetched 50 c)). lia.
    + pose proof (chart_points_live_length "" (fetched 50 c)). lia.
  - intros y. rewrite rerun_show_history.
    pose proof (chart_points_history_length y (fetched 1000 (cloud w))).
    pose proof (fetched_length 1000 (cloud w) ltac:(lia)). lia.
Qed.

Lemma newest_first_frame (rows : list Row) :
  newest_first rows ->
  StronglySorted (fun a b => col_id b <= col_id a)
    (map (fun r => localize (rename r)) rows).
Proof.
  unfold newest_first.
  induction 1 as [| a l Hl IH Ha]; simpl; constructor; [exact IH |].
  rewrite Forall_map. exact Ha.
Qed.

Lemma Asia_Kolkata_since_1945 (t : Z) :
  -764145000 <= t -> Asia_Kolkata t = 19800.
Proof.
  intros Ht. unfold Asia_Kolkata.
  repeat match goal with
         | |- context [t <? ?y] => destruct (Z.ltb_spec t y)
         end; (lia || reflexivity).
Qed.

(** X6. When the conversion accepts the timestamps of a non-empty fetch,
    the table of the historical view is the converted frame: the fetched
    rows in the order fetched, newest first, although the chart above it
    is drawn from the sorted frame.  Each row keeps its id, its instant
    and its readings, and its timestamp is shown at the offset of
    Asia/Kolkata at its instant, which is UTC+05:30 for every row written
    since 1945-10-15. *)
Theorem history_table_newest_first :
  forall (w : World) (rows : list Row) (df : DataFrame),
    fst (get_latest_data 1000 w) = Ret rows ->
    convert_Timestamp (DataFrame_of rows) = Ret df ->
    In (Dataframe df) (frame (rerun show_history w)) /\
    map col_id df = map id rows /\
    StronglySorted (fun a b => col_id b <= col_id a) df /\
    map (fun s => instant (Timestamp s)) df =
      map (fun r => instant (created_at r)) rows /\
    Forall (fun s => utcoffset (Timestamp s) =
                     Asia_Kolkata (instant (Timestamp s) / 1000000)) df /\
    (Forall (fun r => -764145000 * 1000000 <= instant (created_at r)) rows ->
     Forall (fun s => utcoffset (Timestamp s) = 19800) df) /\
    map (fun s => (MQ135 s, Temperature s, Humidity s, AQI s)) df =
      map (fun r => (mq135 r, temperature r, humidity r, aqi r)) rows.
Proof.
  intros w rows df Hfetch Hconv. apply got_rows in Hfetch.
  pose proof (fetched_newest_first 1000 (cloud w)) as Hsorted.
  rewrite Hfetch in Hsorted.
  rewrite rerun_show_history, Hfetch.
  destruct rows as [| r rest]; [discriminate |].
  rewrite (history_frame_converted r rest df Hconv).
  apply convert_Timestamp_Ret in Hconv as [-> _].
  split; [simpl; auto 10 |].
  unfold DataFrame_of. rewrite !map_map.
  split; [reflexivity |].
  split; [now apply newest_first_frame |].
  split; [reflexivity |].
  split; [rewrite Forall_map; apply Forall_forall; reflexivity |].
  split; [| reflexivity].
  intros Hrecent. rewrite Forall_map.
  eapply Forall_impl; [| exact Hrecent].
  intros a Ha. cbv beta in Ha.
  cbn [localize rename set_Timestamp Timestamp tz_convert utcoffset instant].
  apply Asia_Kolkata_since_1945.
  apply Z.div_le_lower_bound; [lia |].
  change (-764145000 * 1000000) with (1000000 * -764145000) in Ha. exact Ha.
Qed.

Lemma history_table_newest_first_witness :
  In (Dataframe (map localize (DataFrame_of [r5; r4; r3])))
     (frame (rerun show_history (mkWorld cloud_up []))) /\
  map col_id (map localize (DataFrame_of [r5; r4; r3])) = map id [r5; r4; r3].
Proof.
  destruct (history_table_newest_first (mkWorld cloud_up []) [r5; r4; r3]
              (map localize (DataFrame_of [r5; r4; r3])))
    as (Hin & Hid & _).
  - reflexivity.
  - reflexivity.
  - split; [exact Hin | exact Hid].
Defined.

(** ** Charts of a batch in time order *)

Lemma StronglySorted_app {A : Type} (R : A -> A -> Prop) (l1 l2 : list A) :
  StronglySorted R l1 ->
  StronglySorted R l2 ->
  (forall x y, In x l1 -> In y l2 -> R x y) ->
  StronglySorted R (l1 ++ l2).
Proof.
  induction 1 as [| a l1 Hl IH Ha]; intros H2 Hcross; simpl; [exact H2 |].
  constructor.
  - apply IH; [exact H2 |]. intros x y Hx Hy. apply Hcross; [now right | exact Hy].
  - apply Forall_app. split; [exact Ha |].
    apply Forall_forall. intros y Hy. apply Hcross; [now left | exact Hy].
Qed.

Lemma StronglySorted_rev {A : Type} (R : A -> A -> Prop) (l : list A) :
  StronglySorted (fun a b => R b a) l -> StronglySorted R (rev l).
Proof.
  induction 1 as [| a l Hl IH Ha]; simpl; [constructor |].
  apply StronglySorted_app; [exact IH | repeat constructor |].
  intros x y Hx [<- | []].
  rewrite Forall_forall in Ha. apply Ha. now apply in_rev.
Qed.

(** A frame whose instants strictly increase is the only sorted
    rearrangement of itself. *)
Lemma sorted_rearrangement_unique (l1 l2 : DataFrame) :
  StronglySorted (fun a b => instant (Timestamp a) < instant (Timestamp b)) l1 ->
  Sorted (fun a b => instant (Timestamp a) <= instant (Timestamp b)) l2 ->
  Permutation l1 l2 ->
  l1 = l2.
Proof.
  revert l2. induction l1 as [| a l1 IH]; intros l2 H1 H2 HP.
  - apply Permutation_nil in HP. now subst.
  - destruct l2 as [| b l2].
    { apply Permutation_sym, Permutation_nil in HP. discriminate. }
    apply StronglySorted_inv in H1 as [H1 Ha].
    assert (H2s : StronglySorted
                    (fun a b => instant (Timestamp a) <= instant (Timestamp b))
                    (b :: l2)).
    { apply Sorted_StronglySorted; [| exact H2]. intros x y z; lia. }
    apply StronglySorted_inv in H2s as [_ Hb].
    apply Sorted_inv in H2 as [H2 _].
    rewrite Forall_forall in Ha, Hb.
    assert (Hab : a = b).
    { destruct (Permutation_in b (Permutation_sym HP) (in_eq b l2)) as [E | Hin];
        [exact E |].
      destruct (Permutation_in a HP (in_eq a l1)) as [E | Hin']; [now symmetry |].
      specialize (Ha b Hin). specialize (Hb a Hin'). lia. }
    subst b. f_equal.
    apply IH; [exact H1 | exact H2 |].
    eapply Permutation_cons_inv. exact HP.
Qed.

Lemma sort_values_descending (rows : list Row) :
  StronglySorted (fun a b => instant (created_at b) < instant (created_at a)) rows ->
  sort_values (map localize (DataFrame_of rows)) =
  rev (map localize (DataFrame_of rows)).
Proof.
  intros Hdesc. symmetry. apply sorted_rearrangement_unique.
  - apply StronglySorted_rev. unfold DataFrame_of. rewrite map_map.
    induction Hdesc as [| a l Hl IH Ha]; simpl; constructor; [exact IH |].
    rewrite Forall_map. exact Ha.
  - apply sort_values_Sorted.
  - rewrite sort_values_Permutation. symmetry. apply Permutation_rev.
Qed.

Lemma points_descending (y : YColumn) (rows : list Row) :
  StronglySorted (fun a b => instant (created_at b) < instant (created_at a)) rows ->
  points y (sort_values (map localize (DataFrame_of rows))) =
  rev (map (fun r => (tz_convert Asia_Kolkata (created_at r), raw_value y r)) rows).
Proof.
  intros Hdesc. rewrite sort_values_descending by exact Hdesc.
  unfold points, DataFrame_of. rewrite map_rev. f_equal.
  rewrite !map_map. apply map_ext. intros r. now destruct y.
Qed.

(** X7. When the conversion accepts a fetched batch whose timestamps
    strictly decrease along the batch, as they do when newer ids carry
    newer timestamps, each line of a chart is the batch in reverse: its
    first point is the oldest row fetched and its last point the newest,
    each at its instant, shown in Asia/Kolkata, with the stored value
    unchanged. *)
Theorem chart_is_reversed_batch :
  forall (w : World) (rows : list Row) (df : DataFrame),
    StronglySorted (fun a b => instant (created_at b) < instant (created_at a)) rows ->
    convert_Timestamp (DataFrame_of rows) = Ret df ->
    (fst (get_latest_data 50 w) = Ret rows ->
     chart_points "" (frame (rerun show_live_monitor w)) =
     rev (map (fun r => (tz_convert Asia_Kolkata (created_at r), aqi r)) rows)) /\
    (fst (get_latest_data 1000 w) = Ret rows ->
     forall y : YColumn,
       chart_points (column_name y) (frame (rerun show_history w)) =
       rev (map (fun r => (tz_convert Asia_Kolkata (created_at r), raw_value y r)) rows)).
Proof.
  intros w rows df Hdesc Hconv. split; intros Hfetch; apply got_rows in Hfetch.
  - rewrite rerun_show_live_monitor, Hfetch, (chart_points_live rows df Hconv).
    apply convert_Timestamp_Ret in Hconv as [-> _].
    exact (points_descending yAQI rows Hdesc).
  - intros y.
    rewrite rerun_show_history, Hfetch, (chart_points_history y rows df Hconv).
    apply convert_Timestamp_Ret in Hconv as [-> _].
    exact (points_descending y rows Hdesc).
Qed.

Lemma chart_is_reversed_batch_witness :
  chart_points "" (frame (rerun show_live_monitor (mkWorld cloud_up []))) =
  rev (map (fun r => (tz_convert Asia_Kolkata (created_at r), aqi r)) [r5; r4; r3]) /\
  chart_points "Humidity" (frame (rerun show_history (mkWorld cloud_up []))) =
  rev (map (fun r => (tz_convert Asia_Kolkata (created_at r), raw_value yHumidity r))
         [r5; r4; r3]).
Proof.
  assert (Hdesc : StronglySorted
                    (fun a b => instant (created_at b) < instant (created_at a))
                    [r5; r4; r3])
    by (repeat constructor; simpl; lia).
  assert (Hconv : convert_Timestamp (DataFrame_of [r5; r4; r3]) =
                  Ret (map localize (DataFrame_of [r5; r4; r3])))
    by reflexivity.
  split.
  - refine (proj1 (chart_is_reversed_batch (mkWorld cloud_up []) [r5; r4; r3] _
                     Hdesc Hconv) _).
    reflexivity.
  - refine (proj2 (chart_is_reversed_batch (mkWorld cloud_up []) [r5; r4; r3] _
                     Hdesc Hconv) _ yHumidity).
    reflexivity.
Defined.

(** ** The time of the last update *)

Lemma digit_value_digit (k : Z) : 0 <= k <= 9 -> digit_value (digit k) = Some k.
Proof.
  intros Hk.
  assert (Hcases : k = 0 \/ k = 1 \/ k = 2 \/ k = 3 \/ k = 4 \/
                   k = 5 \/ k = 6 \/ k = 7 \/ k = 8 \/ k = 9) by lia.
  repeat (destruct Hcases as [-> | Hcases]; [reflexivity |]).
  subst k. reflexivity.
Qed.

Lemma read_two_digits (n : Z) :
  0 <= n < 100 ->
  read_digits 0 (String (digit (n / 10)) (String (digit (n mod 10)) EmptyString)) = Some n.
Proof.
  intros Hn. cbn [read_digits].
  rewrite digit_value_digit
    by (split; [apply Z.div_pos; lia | apply Z.lt_succ_r, Z.div_lt_upper_bound; lia]).
  rewrite digit_value_digit by (pose proof (Z.mod_pos_bound n 10); lia).
  f_equal. pose proof (Z.div_mod n 10). lia.
Qed.

Lemma read_HMS_two_digits (h m s : Z) :
  0 <= h < 100 -> 0 <= m < 100 -> 0 <= s < 100 ->
  read_HMS (two_digits h ++ ":" ++ two_digits m ++ ":" ++ two_digits s)%string
  = Some (h, m, s).
Proof.
  intros Hh Hm Hs. unfold two_digits.
  cbn [append read_HMS Ascii.eqb Bool.eqb andb].
  now rewrite !read_two_digits.
Qed.

Lemma time_of_day_bounds (secs : Z) :
  0 <= secs < 86400 ->
  0 <= secs / 3600 < 24 /\
  0 <= secs mod 3600 / 60 < 60 /\
  0 <= secs mod 60 < 60 /\
  3600 * (secs / 3600) + 60 * (secs mod 3600 / 60) + secs mod 60 = secs.
Proof.
  intros Hs.
  pose proof (Z.div_mod secs 3600).
  pose proof (Z.mod_pos_bound secs 3600).
  pose proof (Z.div_mod (secs mod 3600) 60).
  pose proof (Z.mod_pos_bound (secs mod 3600) 60).
  assert (Hmod : secs mod 60 = (secs mod 3600) mod 60).
  { symmetry. apply (Z.mod_unique _ _ (60 * (secs / 3600) + secs mod 3600 / 60)).
    - left. lia.
    - lia. }
  assert (0 <= secs / 3600) by (apply Z.div_pos; lia).
  assert (secs / 3600 < 24) by (apply Z.div_lt_upper_bound; lia).
  assert (0 <= secs mod 3600 / 60) by (apply Z.div_pos; lia).
  assert (secs mod 3600 / 60 < 60) by (apply Z.div_lt_upper_bound; lia).
  lia.
Qed.

(** X8. For a non-empty fetched batch whose timestamps the conversion
    accepts, the caption of the live view reads "Last Updated: HH:MM:SS",
    where HH:MM:SS is the time of day of the newest row in Asia/Kolkata,
    whatever offset its stored timestamp carries: the text reads back as
    an hour below 24, a minute and a second below 60, which together are
    the second of the day of the row's instant moved east by the offset
    of Asia/Kolkata at that instant, 19800 seconds for every instant
    since 1945-10-15. *)
Theorem caption_is_kolkata_time :
  forall (w : World) (r : Row) (rest : list Row) (df : DataFrame),
    fst (get_latest_data 50 w) = Ret (r :: rest) ->
    convert_Timestamp (DataFrame_of (r :: rest)) = Ret df ->
    let t := instant (created_at r) / 1000000 in
    let secs := (t + Asia_Kolkata t) mod 86400 in
    (-764145000 <= t -> Asia_Kolkata t = 19800) /\
    exists text h m s,
      In (Caption ("Last Updated: " ++ text)) (frame (rerun show_live_monitor w)) /\
      read_HMS text = Some (h, m, s) /\
      0 <= h < 24 /\ 0 <= m < 60 /\ 0 <= s < 60 /\
      3600 * h + 60 * m + s = secs.
Proof.
  intros w r rest df Hfetch Hconv t secs. apply got_rows in Hfetch.
  split; [apply Asia_Kolkata_since_1945 |].
  rewrite rerun_show_live_monitor, Hfetch, (live_frame_converted r rest df Hconv).
  assert (Hsecs : 0 <= secs < 86400) by (apply Z.mod_pos_bound; lia).
  destruct (time_of_day_bounds secs Hsecs) as (Hh & Hm & Hs & Hsum).
  exists (strftime_HMS (Timestamp (localize (rename r)))).
  exists (secs / 3600), (secs mod 3600 / 60), (secs mod 60).
  split; [simpl; auto 10 |].
  split; [| now repeat split].
  unfold strftime_HMS. cbn [localize rename set_Timestamp Timestamp tz_convert
                              instant utcoffset].
  fold t. fold secs. apply read_HMS_two_digits; lia.
Qed.

Lemma caption_is_kolkata_time_witness :
  exists text h m s,
    In (Caption ("Last Updated: " ++ text))
       (frame (rerun show_live_monitor (mkWorld cloud_up []))) /\
    read_HMS text = Some (h, m, s) /\
    0 <= h < 24 /\ 0 <= m < 60 /\ 0 <= s < 60 /\
    3600 * h + 60 * m + s =
      (instant (created_at r5) / 1000000 +
       Asia_Kolkata (instant (created_at r5) / 1000000)) mod 86400.
Proof.
  refine (proj2 (caption_is_kolkata_time (mkWorld cloud_up []) r5 [r4; r3]
                   (map localize (DataFrame_of [r5; r4; r3])) _ _)).
  - reflexivity.
  - reflexivity.
Defined.

(** ** The legend of the AQI bar *)

(** X9. The bar under the status agrees with the classification.  For
    every AQI value, the segment of the bar at the position of its band
    has, in the style sheet, the colour in which the value is printed;
    unless the band is Hazardous, the tick at the right edge of that
    segment reads the largest value of the band; and unless the band is
    Good, the tick at its left edge reads a value below it. *)
Theorem legend_agrees_with_classify :
  forall a : Z,
    let k := Z.to_nat (severity (classify a)) in
    (exists class text,
        nth_error bar_segments k = Some (class, text) /\
        css_background class = Some (color (classify a))) /\
    (classify a <> Hazardous ->
     exists u,
       match nth_error bar_ticks (S k) with
       | Some t => read_number t
       | None => None
       end = Some u /\
       forall a' : Z, severity (classify a') <= severity (classify a) <-> a' <= u) /\
    (classify a <> Good ->
     exists l,
       match nth_error bar_ticks k with
       | Some t => read_number t
       | None => None
       end = Some l /\
       l < a).
Proof.
  intros a k. subst k.
  pose proof (classify_range a) as Ha.
  destruct (classify a); cbn [severity Z.to_nat Pos.to_nat Pos.iter_op Nat.add color].
  all: split; [do 2 eexists; split; reflexivity |].
  all: split; intros Hb; try (contradiction Hb; reflexivity).
  all: try (eexists; split; [cbv; reflexivity | lia]).
  all: eexists; split; [cbv; reflexivity |].
  all: intros a'; pose proof (classify_range a') as Ha';
    destruct (classify a'); simpl; lia.
Qed.

Lemma legend_agrees_with_classify_witness :
  (exists u,
      match nth_error bar_ticks (S (Z.to_nat (severity (classify 180)))) with
      | Some t => read_number t
      | None => None
      end = Some u /\
      forall a' : Z, severity (classify a') <= severity (classify 180) <-> a' <= u) /\
  (exists l,
      match nth_error bar_ticks (Z.to_nat (severity (classify 180))) with
      | Some t => read_number t
      | None => None
      end = Some l /\
      l < 180).
Proof.
  destruct (legend_agrees_with_classify 180) as (_ & Hright & Hleft).
  split; [apply Hright | apply Hleft]; discriminate.
Defined.

(** ** The configuration and the router *)

Lemma secrets_get_found (secrets : list (string * string)) (key v : string) :
  secrets_get secrets key = Ret v -> In (key, v) secrets.
Proof.
  induction secrets as [| [k v'] rest IH]; simpl; [discriminate |].
  destruct (String.eqb_spec k key) as [-> | Hne].
  - intros [= ->]. now left.
  - intros H. right. now apply IH.
Qed.

Lemma secrets_get_missing (secrets : list (string * string)) (key : string) :
  (forall v, ~ In (key, v) secrets) ->
  secrets_get secrets key = Raise (KeyError key).
Proof.
  induction secrets as [| [k v'] rest IH]; simpl; intros Hmiss; [reflexivity |].
  destruct (String.eqb_spec k key) as [-> | Hne].
  - exfalso. apply (Hmiss v'). now left.
  - apply IH. intros v Hin. apply (Hmiss v). now right.
Qed.

(** X10. When a secret is missing, or when the store's library refuses
    every url and key the secrets offer, the script draws the connection
    error alone and stops: no widget, no view, and no round trip to the
    store. *)
Theorem script_stops_without_configuration :
  forall (create_client : string -> string -> Py unit)
         (secrets : list (string * string))
         (refresh_seconds : Z) (choice : string) (w : World),
    (forall v, ~ In ("SUPABASE_URL", v) secrets) \/
    (forall v, ~ In ("SUPABASE_KEY", v) secrets) \/
    (forall url key,
        In ("SUPABASE_URL", url) secrets ->
        In ("SUPABASE_KEY", key) secrets ->
        exists e, create_client url key = Raise e) ->
    script create_client secrets refresh_seconds choice w =
    ([ErrorBox "❌ Connection Error: Please check your Streamlit Cloud 'Secrets' configuration."],
     w).
Proof.
  intros create_client secrets refresh_seconds choice w Hbad.
  unfold script.
  assert (Hraise : exists e, configure create_client secrets = Raise e).
  { unfold configure.
    destruct (secrets_get secrets "SUPABASE_URL") as [url | e] eqn:Hurl;
      [| now exists e].
    destruct (secrets_get secrets "SUPABASE_KEY") as [key | e] eqn:Hkey;
      [| now exists e].
    simpl.
    destruct Hbad as [Hmiss | [Hmiss | Hrefuse]].
    - apply secrets_get_missing in Hmiss. congruence.
    - apply secrets_get_missing in Hmiss. congruence.
    - apply Hrefuse; now apply secrets_get_found. }
  destruct Hraise as [e ->]. reflexivity.
Qed.

Lemma script_stops_without_configuration_witness :
  script (fun _ _ => Ret tt) [("SUPABASE_URL", "https://example.supabase.co")]
    2 "Current Data" (mkWorld cloud_up []) =
  ([ErrorBox "❌ Connection Error: Please check your Streamlit Cloud 'Secrets' configuration."],
   mkWorld cloud_up []).
Proof.
  apply script_stops_without_configuration.
  right. left. intros v [H | []]. discriminate.
Defined.

(** X11. Once the configuration succeeds, the script draws the style
    sheet and the four widgets of the sidebar, then runs the view whose
    option the radio returns: the live view for "Current Data", the
    historical view for "Stored Data", the forecast view for "Future
    Data", these three texts being the options the radio offers.  For
    any other value it draws no view and makes no round trip. *)
Theorem script_draws_chosen_view :
  forall (create_client : string -> string -> Py unit)
         (secrets : list (string * string))
         (refresh_seconds : Z) (choice : string) (w : World),
    configure create_client secrets = Ret tt ->
    let widgets :=
      [StyleSheet;
       SidebarTitle "⚙️ Settings";
       SidebarSlider "⏱ Refresh Speed" 2 60 refresh_seconds;
       SidebarTitle "📌 Navigation";
       SidebarRadio "Select View" radio_options choice] in
    radio_options = map label [CurrentData; StoredData; FutureData] /\
    (forall c : Choice,
        choice = label c ->
        script create_client secrets refresh_seconds choice w =
        ((widgets ++ map Body (frame (rerun (router c) w)))%list,
         rerun (router c) w)) /\
    (~ In choice radio_options ->
     script create_client secrets refresh_seconds choice w =
     (widgets, {| cloud := cloud w; frame := [] |})).
Proof.
  intros create_client secrets refresh_seconds choice w Hconf widgets.
  subst widgets. unfold script. rewrite Hconf.
  split; [reflexivity |]. split.
  - intros c ->. destruct c; reflexivity.
  - intros Hnot. unfold route.
    destruct (String.eqb_spec choice "Current Data") as [-> | H1].
    { exfalso. apply Hnot. now left. }
    destruct (String.eqb_spec choice "Stored Data") as [-> | H2].
    { exfalso. apply Hnot. right. now left. }
    destruct (String.eqb_spec choice "Future Data") as [-> | H3].
    { exfalso. apply Hnot. right. right. now left. }
    reflexivity.
Qed.

Lemma script_draws_chosen_view_witness :
  script (fun _ _ => Ret tt)
    [("SUPABASE_KEY", "key"); ("SUPABASE_URL", "https://example.supabase.co")]
    5 "Stored Data" (mkWorld cloud_up []) =
  (([StyleSheet;
     SidebarTitle "⚙️ Settings";
     SidebarSlider "⏱ Refresh Speed" 2 60 5;
     SidebarTitle "📌 Navigation";
     SidebarRadio "Select View" radio_options "Stored Data"]
      ++ map Body (frame (rerun (router StoredData) (mkWorld cloud_up []))))%list,
   rerun (router StoredData) (mkWorld cloud_up [])).
Proof.
  refine (proj1 (proj2 (script_draws_chosen_view (fun _ _ => Ret tt)
                          [("SUPABASE_KEY", "key");
                           ("SUPABASE_URL", "https://example.supabase.co")]
                          5 "Stored Data" (mkWorld cloud_up []) _))
            StoredData _).
  - reflexivity.
  - reflexivity.
Defined.

(** ** The bands of stored values *)

(** X13. In terms of the stored value, which need not be an integer, the
    live view shows Good below 51, Moderate from 51 to below 101,
    Unhealthy (Sens.) from 101 to below 151, Unhealthy from 151 to below
    201, Very Unhealthy from 201 to below 301, and Hazardous from 301
    on: truncation moves every threshold up to the next integer. *)
Theorem stored_value_bands :
  forall (x : Q),
    (classify (int x) = Good <-> (x < 51)%Q) /\
    (classify (int x) = Moderate <-> (51 <= x < 101)%Q) /\
    (classify (int x) = UnhealthySensitive <-> (101 <= x < 151)%Q) /\
    (classify (int x) = Unhealthy <-> (151 <= x < 201)%Q) /\
    (classify (int x) = VeryUnhealthy <-> (201 <= x < 301)%Q) /\
    (classify (int x) = Hazardous <-> (301 <= x)%Q).
Proof.
  intros x.
  destruct (classify_iff (int x)) as (G & Mo & US & U & V & Hz).
  pose proof (int_le_iff x 50 ltac:(lia)) as L50.
  pose proof (int_le_iff x 100 ltac:(lia)) as L100.
  pose proof (int_le_iff x 150 ltac:(lia)) as L150.
  pose proof (int_le_iff x 200 ltac:(lia)) as L200.
  pose proof (int_le_iff x 300 ltac:(lia)) as L300.
  pose proof (int_gt_iff x 50 ltac:(lia)) as G50.
  pose proof (int_gt_iff x 100 ltac:(lia)) as G100.
  pose proof (int_gt_iff x 150 ltac:(lia)) as G150.
  pose proof (int_gt_iff x 200 ltac:(lia)) as G200.
  pose proof (int_gt_iff x 300 ltac:(lia)) as G300.
  change (inject_Z (50 + 1)) with 51%Q in L50, G50.
  change (inject_Z (100 + 1)) with 101%Q in L100, G100.
  change (inject_Z (150 + 1)) with 151%Q in L150, G150.
  change (inject_Z (200 + 1)) with 201%Q in L200, G200.
  change (inject_Z (300 + 1)) with 301%Q in L300, G300.
  split; [rewrite G; exact L50 |].
  split; [rewrite Mo, G50, L100; reflexivity |].
  split; [rewrite US, G100, L150; reflexivity |].
  split; [rewrite U, G150, L200; reflexivity |].
  split; [rewrite V, G200, L300; reflexivity |].
  rewrite Hz. exact G300.
Qed.

